(** * Provider adapters and chat orchestrator of didactic-adventure

    A shallow embedding of

      - [app/lib/modules/llm/providers/featherless.ts] (FeatherlessProvider),
      - [app/lib/modules/llm/providers/ollama.ts] (OllamaProvider), and
      - the state initialisers, the model-refresh effect and the two
        persistence effects of the [ChatImpl] component,

    together with the properties the specification states about them.

    The TypeScript types of the listing responses ([FeatherlessApiResponse],
    [{ models: Array<{ name: string }> }]) are assertions that are erased at
    run time: the adapters read whatever the backend sent.  The embedding
    therefore works on run-time JavaScript values ([JSValue]) and makes every
    property access, truthiness test, exception and pending promise
    explicit.  [console.log] and [console.error] calls are left out: they
    do not change control flow.

    Every definition describes one call.  A [World] is the environment
    during that call (what the peer and [getModelList] answer then); what
    successive calls do is stated over successive worlds. *)

From Stdlib Require Import ZArith List String Ascii DecimalString Bool Lia.
From stdpp Require Import base option gmap strings.

Import ListNotations.
#[local] Set Warnings "-register-all".
Local Open Scope string_scope.
Local Open Scope Z_scope.

(** ** Run-time values, exceptions and promises *)

Module JS.

(** Values a JSON document can denote, plus [undefined].  Numbers are the
    integral ones; an object keeps its members in source order. *)
Inductive JSValue : Type :=
| JUndefined
| JNull
| JBool (b : bool)
| JNumber (n : Z)
| JString (s : string)
| JArray (elems : list JSValue)
| JObject (members : list (string * JSValue)).

Inductive ErrorName : Type := Error | TypeError | SyntaxError | AbortError.

Record JSError : Type := mkError { errName : ErrorName; errMessage : string }.

(** How the evaluation of an (awaited) expression ends: with a value, with
    an exception (a rejected promise), or never (a promise that never
    settles). *)
Inductive Outcome (A : Type) : Type :=
| Returned (a : A)
| Raised (e : JSError)
| Pending.

Arguments Returned {A} a.
Arguments Raised {A} e.
Arguments Pending {A}.

Definition bind {A B : Type} (m : Outcome A) (k : A -> Outcome B) : Outcome B :=
  match m with
  | Returned a => k a
  | Raised e => Raised e
  | Pending => Pending
  end.

(** [try { m } catch (error) { h error }] *)
Definition try_catch {A : Type} (m : Outcome A) (h : JSError -> Outcome A) : Outcome A :=
  match m with
  | Raised e => h e
  | _ => m
  end.

Module Import Notations.
Notation "x <- m ;; k" := (bind m (fun x => k))
  (at level 100, m at next level, right associativity).
End Notations.

(** [!v] is [negb (truthy v)]. *)
Definition truthy (v : JSValue) : bool :=
  match v with
  | JUndefined | JNull => false
  | JBool b => b
  | JNumber n => negb (n =? 0)
  | JString s => negb (String.eqb s "")
  | JArray _ | JObject _ => true
  end.

(** A [string | undefined] value; [!s] holds for [undefined] and for [""]. *)
Definition truthy_str (s : option string) : bool :=
  match s with
  | None => false
  | Some s => negb (String.eqb s "")
  end.

Definition isArray (v : JSValue) : bool :=
  match v with JArray _ => true | _ => false end.

(** The last member named [k] wins, as in [JSON.parse]. *)
Fixpoint lookup_member (k : string) (ms : list (string * JSValue)) : option JSValue :=
  match ms with
  | [] => None
  | (k', v) :: ms' =>
      match lookup_member k ms' with
      | Some w => Some w
      | None => if String.eqb k' k then Some v else None
      end
  end.

(** [v.k] for the member names the adapters read ([models], [id],
    [details], [name], [size], [context_length]); none of them is defined
    on the prototype of a string, number, boolean, array or plain object.
    Reading a member of [undefined] or [null] throws. *)
Definition getProp (v : JSValue) (k : string) : Outcome JSValue :=
  match v with
  | JUndefined =>
      Raised (mkError TypeError ("Cannot read properties of undefined (reading '" ++ k ++ "')"))
  | JNull =>
      Raised (mkError TypeError ("Cannot read properties of null (reading '" ++ k ++ "')"))
  | JObject ms => Returned (default JUndefined (lookup_member k ms))
  | _ => Returned JUndefined
  end.

Definition string_of_Z (n : Z) : string := NilZero.string_of_int (Z.to_int n).

Fixpoint join (sep : string) (l : list string) : string :=
  match l with
  | [] => ""
  | [s] => s
  | s :: l' => s ++ sep ++ join sep l'
  end.

(** *** Numbers as text

    A [JNumber] holds the value of an integral Number.  [round53 n] is
    the Number nearest to the integer [0 <= n] (53 significant bits, ties
    to even); [JSON.parse] rounds a numeral so, and the printing below
    prints the nearest Number. *)
Definition round53 (n : Z) : Z :=
  if n <? 2 ^ 53 then n
  else
    let e := Z.log2 n - 52 in
    let q := Z.shiftr n e in
    let r := n - Z.shiftl q e in
    let half := Z.shiftl 1 (e - 1) in
    let q' := if r <? half then q
              else if half <? r then q + 1
              else if Z.even q then q else q + 1 in
    Z.shiftl q' e.

(** The multiple of a power of ten with the fewest significant digits
    that still reads back as the Number [x]; of two with as few digits the
    nearer one, and on a tie the one with the even last digit.  [d] is the
    number of digits of [x], [k] the number of significant digits
    tried. *)
Fixpoint shortest (fuel : nat) (k : Z) (x d : Z) : Z :=
  match fuel with
  | O => x
  | S fuel' =>
      let unit := 10 ^ (d - k) in
      let lo := (x / unit) * unit in
      let hi := lo + unit in
      let ok_lo := round53 lo =? x in
      let ok_hi := round53 hi =? x in
      if ok_lo && ok_hi then
        if x - lo <? hi - x then lo
        else if hi - x <? x - lo then hi
        else if Z.even (x / unit) then lo else hi
      else if ok_lo then lo
      else if ok_hi then hi
      else shortest fuel' (k + 1) x d
  end.

Fixpoint strip_zeros (rev_digits : list ascii) : list ascii :=
  match rev_digits with
  | c :: l => if Ascii.eqb c "0"%char then strip_zeros l else rev_digits
  | [] => []
  end.

(** The digits of [text] without its trailing zeros. *)
Definition significant (text : string) : string :=
  string_of_list_ascii (List.rev (strip_zeros (List.rev (list_ascii_of_string text)))).

(** [Number::toString] on the Number nearest to [n]: plain digits below
    10^21, exponent notation from there on. *)
Definition Number_toString (n : Z) : string :=
  let x := round53 (Z.abs n) in
  let sign := if n <? 0 then "-" else "" in
  if 2 ^ 1024 <=? x then sign ++ "Infinity"
  else
    let d := Z.of_nat (String.length (string_of_Z x)) in
    let v := shortest (Z.to_nat d) 1 x d in
    let text := string_of_Z v in
    if v <? 10 ^ 21 then sign ++ text
    else
      let digits := significant text in
      let exponent := Z.of_nat (String.length text) - 1 in
      match digits with
      | String c rest =>
          sign ++ String c (if String.eqb rest "" then "" else "." ++ rest)
               ++ "e+" ++ string_of_Z exponent
      | EmptyString => sign ++ text
      end.

(** The texts of the elements of an array, in order, up to the first
    conversion that throws. *)
Definition elementTexts (text : JSValue -> Outcome string)
  : list JSValue -> Outcome (list string) :=
  fix elements (l : list JSValue) : Outcome (list string) :=
    match l with
    | [] => Returned []
    | x :: l' =>
        t <- text x ;;
        ts <- elements l' ;;
        Returned (t :: ts)
    end.

(** String conversion of a value inside a template literal.  An object
    with a member of its own named [toString] has nothing callable to
    convert it ([Object.prototype.valueOf] answers the object itself), so
    the conversion throws; any other object prints as [[object Object]].
    An array prints its elements joined by commas, [undefined] and [null]
    as nothing, and throws when an element does. *)
Fixpoint ToString (v : JSValue) : Outcome string :=
  match v with
  | JUndefined => Returned "undefined"
  | JNull => Returned "null"
  | JBool true => Returned "true"
  | JBool false => Returned "false"
  | JNumber n => Returned (Number_toString n)
  | JString s => Returned s
  | JArray l =>
      texts <- elementTexts (fun x => match x with
                                      | JUndefined | JNull => Returned ""
                                      | _ => ToString x
                                      end) l ;;
      Returned (join "," texts)
  | JObject ms =>
      match lookup_member "toString" ms with
      | Some _ => Raised (mkError TypeError "Cannot convert object to primitive value")
      | None => Returned "[object Object]"
      end
  end.

(** [`${s}`] for a [string | undefined]. *)
Definition ToString_str (s : option string) : string :=
  match s with
  | None => "undefined"
  | Some s => s
  end.

(** [a === b].  Primitives compare by value; arrays and objects compare by
    identity, and the values compared here come from different
    allocations, so they are never identical. *)
Definition strictEq (a b : JSValue) : bool :=
  match a, b with
  | JUndefined, JUndefined => true
  | JNull, JNull => true
  | JBool x, JBool y => Bool.eqb x y
  | JNumber x, JNumber y => x =? y
  | JString x, JString y => String.eqb x y
  | _, _ => false
  end.

(** [l.map(f)] where [f] may throw: elements are visited in order and the
    first exception ends the traversal. *)
Fixpoint Array_map {B : Type} (f : JSValue -> Outcome B) (l : list JSValue) : Outcome (list B) :=
  match l with
  | [] => Returned []
  | x :: l' =>
      y <- f x ;;
      ys <- Array_map f l' ;;
      Returned (y :: ys)
  end.

(** [v.map(f)]: only an array has a callable [map]. *)
Definition method_map {B : Type} (v : JSValue) (f : JSValue -> Outcome B) : Outcome (list B) :=
  match v with
  | JArray l => Array_map f l
  | JUndefined => Raised (mkError TypeError "Cannot read properties of undefined (reading 'map')")
  | JNull => Raised (mkError TypeError "Cannot read properties of null (reading 'map')")
  | _ => Raised (mkError TypeError "map is not a function")
  end.

End JS.

(** ** [JSON.parse]

    The platform's parser, on the JSON grammar with integral numerals: a
    numeral with a fraction or an exponent, a numeral beyond the finite
    Numbers, and a [\u] escape, are outside the fragment (the parser
    answers [None] on them, as it does on text that is not JSON).  A
    numeral denotes the Number nearest to it.  The general theorems below hold for every parser;
    this one is used where the specification gives a response body as
    text. *)

Module JSON.
Import JS.

Inductive token : Type :=
| TLBrace | TRBrace | TLBracket | TRBracket | TColon | TComma
| TString (s : string)
| TNumber (n : Z)
| TTrue | TFalse | TNull.

Definition quote : ascii := "034"%char.
Definition backslash : ascii := "092"%char.

Definition is_ws (c : ascii) : bool :=
  let n := nat_of_ascii c in
  (Nat.eqb n 32 || Nat.eqb n 9 || Nat.eqb n 10 || Nat.eqb n 13)%bool.

Definition is_digit (c : ascii) : bool :=
  let n := nat_of_ascii c in (Nat.leb 48 n && Nat.leb n 57)%bool.

Definition digit_val (c : ascii) : Z := Z.of_nat (nat_of_ascii c) - 48.

Definition unescape (c : ascii) : option ascii :=
  match nat_of_ascii c with
  | 34%nat => Some quote
  | 92%nat => Some backslash
  | 47%nat => Some "/"%char
  | 98%nat => Some "008"%char
  | 102%nat => Some "012"%char
  | 110%nat => Some "010"%char
  | 114%nat => Some "013"%char
  | 116%nat => Some "009"%char
  | _ => None
  end.

(** The characters of a string literal after its opening quote, and the
    text after the closing quote. *)
Fixpoint lex_string (s : string) : option (string * string) :=
  match s with
  | EmptyString => None
  | String c s' =>
      if Ascii.eqb c quote then Some (EmptyString, s')
      else if Ascii.eqb c backslash then
        match s' with
        | EmptyString => None
        | String e s'' =>
            match unescape e, lex_string s'' with
            | Some c', Some (str, rest) => Some (String c' str, rest)
            | _, _ => None
            end
        end
      else if Nat.ltb (nat_of_ascii c) 32 then None
      else
        match lex_string s' with
        | Some (str, rest) => Some (String c str, rest)
        | None => None
        end
  end.

(** The digits at the head of [s], their value on top of [acc], and the
    rest. *)
Fixpoint lex_digits (s : string) (acc : Z) : Z * string :=
  match s with
  | String c s' => if is_digit c then lex_digits s' (10 * acc + digit_val c) else (acc, s)
  | EmptyString => (acc, s)
  end.

Definition starts_fraction_or_exponent (s : string) : bool :=
  match s with
  | String c _ =>
      (Ascii.eqb c "."%char || Ascii.eqb c "e"%char || Ascii.eqb c "E"%char)%bool
  | EmptyString => false
  end.

(** An integral numeral: [0] or a non-zero digit followed by digits. *)
Definition lex_int (s : string) : option (Z * string) :=
  match s with
  | String c s' =>
      if Ascii.eqb c "0"%char then
        match s' with
        | String d _ => if is_digit d then None else
                          if starts_fraction_or_exponent s' then None else Some (0, s')
        | EmptyString => Some (0, s')
        end
      else if is_digit c then
        let '(n, rest) := lex_digits s' (digit_val c) in
        if starts_fraction_or_exponent rest then None else Some (n, rest)
      else None
  | EmptyString => None
  end.

(** The Number a numeral of integer value [n] denotes. *)
Definition number_of (n : Z) : option Z :=
  let x := round53 (Z.abs n) in
  if 2 ^ 1024 <=? x then None else Some (if n <? 0 then - x else x).

Definition drop_prefix (p s : string) : option string :=
  if String.prefix p s then Some (String.substring (String.length p) (String.length s - String.length p) s)
  else None.

Fixpoint lex (fuel : nat) (s : string) : option (list token) :=
  match fuel with
  | O => None
  | S fuel' =>
      match s with
      | EmptyString => Some []
      | String c s' =>
          let continue (t : token) (rest : string) :=
            match lex fuel' rest with
            | Some ts => Some (t :: ts)
            | None => None
            end in
          if is_ws c then lex fuel' s'
          else if Ascii.eqb c "{"%char then continue TLBrace s'
          else if Ascii.eqb c "}"%char then continue TRBrace s'
          else if Ascii.eqb c "["%char then continue TLBracket s'
          else if Ascii.eqb c "]"%char then continue TRBracket s'
          else if Ascii.eqb c ":"%char then continue TColon s'
          else if Ascii.eqb c ","%char then continue TComma s'
          else if Ascii.eqb c quote then
            match lex_string s' with
            | Some (str, rest) => continue (TString str) rest
            | None => None
            end
          else if Ascii.eqb c "-"%char then
            match lex_int s' with
            | Some (n, rest) =>
                match number_of (- n) with
                | Some x => continue (TNumber x) rest
                | None => None
                end
            | None => None
            end
          else if is_digit c then
            match lex_int s with
            | Some (n, rest) =>
                match number_of n with
                | Some x => continue (TNumber x) rest
                | None => None
                end
            | None => None
            end
          else
            match drop_prefix "true" s, drop_prefix "false" s, drop_prefix "null" s with
            | Some rest, _, _ => continue TTrue rest
            | _, Some rest, _ => continue TFalse rest
            | _, _, Some rest => continue TNull rest
            | _, _, _ => None
            end
      end
  end.

(** Recursive descent over the tokens; [fuel] bounds the nesting. *)
Fixpoint parse_value (fuel : nat) (ts : list token) : option (JSValue * list token) :=
  match fuel with
  | O => None
  | S fuel' =>
      match ts with
      | TString s :: r => Some (JString s, r)
      | TNumber n :: r => Some (JNumber n, r)
      | TTrue :: r => Some (JBool true, r)
      | TFalse :: r => Some (JBool false, r)
      | TNull :: r => Some (JNull, r)
      | TLBracket :: TRBracket :: r => Some (JArray [], r)
      | TLBracket :: r =>
          match parse_elements fuel' r with
          | Some (vs, r') => Some (JArray vs, r')
          | None => None
          end
      | TLBrace :: TRBrace :: r => Some (JObject [], r)
      | TLBrace :: r =>
          match parse_members fuel' r with
          | Some (ms, r') => Some (JObject ms, r')
          | None => None
          end
      | _ => None
      end
  end
with parse_elements (fuel : nat) (ts : list token) : option (list JSValue * list token) :=
  match fuel with
  | O => None
  | S fuel' =>
      match parse_value fuel' ts with
      | Some (v, TComma :: r) =>
          match parse_elements fuel' r with
          | Some (vs, r') => Some (v :: vs, r')
          | None => None
          end
      | Some (v, TRBracket :: r) => Some ([v], r)
      | _ => None
      end
  end
with parse_members (fuel : nat) (ts : list token)
  : option (list (string * JSValue) * list token) :=
  match fuel with
  | O => None
  | S fuel' =>
      match ts with
      | TString k :: TColon :: r =>
          match parse_value fuel' r with
          | Some (v, TComma :: r') =>
              match parse_members fuel' r' with
              | Some (ms, r'') => Some ((k, v) :: ms, r'')
              | None => None
              end
          | Some (v, TRBrace :: r') => Some ([(k, v)], r')
          | _ => None
          end
      | _ => None
      end
  end.

(** [JSON.parse(text)]; [None] stands for the [SyntaxError] it throws. *)
Definition parse (text : string) : option JSValue :=
  match lex (S (String.length text)) text with
  | Some ts =>
      match parse_value (2 * List.length ts + 2) ts with
      | Some (v, []) => Some v
      | _ => None
      end
  | None => None
  end.

(** Text with every apostrophe replaced by a double quote, to write JSON
    documents legibly. *)
Fixpoint dq (s : string) : string :=
  match s with
  | EmptyString => EmptyString
  | String c s' => String (if Ascii.eqb c "'"%char then quote else c) (dq s')
  end.

End JSON.

(** ** The network: [fetch], [AbortController] and response bodies *)

Module Net.
Import JS JS.Notations.

Inductive Body : Type :=
| BodyText (s : string)       (* the body arrives and decodes to [s] *)
| BodyError (e : JSError)     (* reading the body rejects *)
| BodyStalls.                 (* the body never completes *)

Record Response : Type := {
  status : Z;
  statusText : string;
  body : Body;
}.

(** [response.ok] *)
Definition ok (r : Response) : bool := (200 <=? status r) && (status r <=? 299).

(** What the peer does with one GET request; [latency] is the time in
    milliseconds until the response (status line and headers) arrives. *)
Inductive ServerBehaviour : Type :=
| Unreachable (e : JSError)
| Silent
| Responds (latency : Z) (r : Response).

(** The second argument of [fetch].  [signal := Some ms] is the signal of
    an [AbortController] whose [abort()] is scheduled by
    [setTimeout(() => controller.abort(), ms)] before the call and whose
    timer is cleared by [clearTimeout] as soon as [fetch] has settled. *)
Record RequestInit : Type := {
  signal : option Z;
  headers : list (string * string);
}.

Definition abortError : JSError := mkError AbortError "This operation was aborted".

(** [await fetch(url, init)] against a peer [server].  A timer that
    expires no later than the response wins. *)
Definition fetch_from (server : string -> list (string * string) -> ServerBehaviour)
    (url : string) (init : option RequestInit) : Outcome Response :=
  let hs := match init with Some i => headers i | None => [] end in
  let sig := match init with Some i => signal i | None => None end in
  match server url hs with
  | Unreachable e => Raised e
  | Silent =>
      match sig with
      | Some _ => Raised abortError
      | None => Pending
      end
  | Responds ms r =>
      match sig with
      | Some t => if ms <? t then Returned r else Raised abortError
      | None => Returned r
      end
  end.

(** [await response.text()], read with no timer armed. *)
Definition text (r : Response) : Outcome string :=
  match body r with
  | BodyText s => Returned s
  | BodyError e => Raised e
  | BodyStalls => Pending
  end.

(** [await response.json()] with the parser [parse]. *)
Definition json_with (parse : string -> option JSValue) (r : Response) : Outcome JSValue :=
  t <- text r ;;
  match parse t with
  | Some v => Returned v
  | None => Raised (mkError SyntaxError "Unexpected token in JSON")
  end.

End Net.

(** ** What the adapters share: types of [~/lib/modules/llm/types],
    [~/types/model] and the contract of [BaseProvider] *)

Module Base.
Import JS.

(** The fields are typed [string] and [number] in TypeScript; the adapters
    fill [name], [label] and [maxTokenAllowed] with members of the parsed
    response, whatever they are. *)
Record ModelInfo : Type := {
  name : JSValue;
  label : JSValue;
  provider : string;
  maxTokenAllowed : JSValue;
}.

Record IProviderSetting : Type := {
  enabled : option bool;
  setting_baseUrl : option string;
}.

(** The [config] member of an adapter: Featherless sets [baseUrlKey],
    [apiTokenKey] and [baseUrl]; Ollama sets [baseUrlKey],
    [defaultBaseUrl] and [enabled]. *)
Record ProviderConfig : Type := {
  baseUrlKey : option string;
  apiTokenKey : option string;
  config_baseUrl : option string;
  defaultBaseUrl : option string;
  config_enabled : option bool;
}.

(** The members of [this] that the resolver may read. *)
Record BaseProvider : Type := {
  provider_name : string;
  config : ProviderConfig;
}.

(** What a caller hands over as [providerSettings]: [getDynamicModels]
    passes the one setting it received, [getModelInstance] passes the whole
    record of settings by provider name. *)
Inductive SettingsArg : Type :=
| OneSetting (s : option IProviderSetting)
| SettingsByName (m : option (gmap string IProviderSetting)).

Record ResolverOptions : Type := {
  apiKeys : option (gmap string string);
  providerSettings : SettingsArg;
  serverEnv : option (gmap string string);
  defaultBaseUrlKey : string;
  defaultApiTokenKey : string;
}.

Record ResolvedCredentials : Type := {
  baseUrl : option string;
  apiKey : option string;
}.

(** The handle [getModelInstance] returns: what [getOpenAILikeModel]
    builds from its three arguments, or the [ollama] client's model with
    its [config.baseURL]. *)
Inductive LanguageModelV1 : Type :=
| OpenAILikeModel (baseURL apiKey model : string)
| OllamaModel (model : string) (numCtx : Z) (baseURL : string).

Record ModelListOptions : Type := {
  list_apiKeys : gmap string string;
  list_providerSettings : gmap string IProviderSetting;
}.

(** Everything the code under verification calls and does not define:
    [BaseProvider.getProviderBaseUrlAndKey] (base-provider.ts), the
    platform's [JSON.parse], the peer behind [fetch], and [getModelList]
    (utils/constants.ts, which may answer [undefined]).  A world is the
    environment during one call: [server] and [getModelList] say what is
    answered then, and another call may meet another world. *)
Class World : Type := {
  getProviderBaseUrlAndKey : BaseProvider -> ResolverOptions -> ResolvedCredentials;
  JSON_parse : string -> option JSValue;
  server : string -> list (string * string) -> Net.ServerBehaviour;
  getModelList : ModelListOptions -> Outcome (option (list ModelInfo));
}.

Definition fetch `{World} : string -> option Net.RequestInit -> Outcome Net.Response :=
  Net.fetch_from server.

Definition json `{World} : Net.Response -> Outcome JSValue := Net.json_with JSON_parse.

(** [a || b] on [string | undefined]. *)
Definition or_else (a b : option string) : option string :=
  if truthy_str a then a else b.

(** Modelled from the spec: [BaseProvider.getProviderBaseUrlAndKey] of
    base-provider.ts is missing.  Section 4.1: the base URL is taken, in
    this order, from the per-call settings (the first two tiers of the
    spec are both the [providerSettings] argument), from the server
    environment variable named by the configured or default base-URL key,
    and from the provider's hardcoded default; the token from the
    per-call [apiKeys] entry of the provider and from the server
    environment variable named by the token key, with no default tier. *)
Definition resolve (this : BaseProvider) (o : ResolverOptions) : ResolvedCredentials :=
  let setting : option IProviderSetting :=
    match providerSettings o with
    | OneSetting s => s
    | SettingsByName (Some m) => m !! provider_name this
    | SettingsByName None => None
    end in
  let settingsBaseUrl :=
    match setting with
    | Some s => setting_baseUrl s
    | None => None
    end in
  let callKey : option string :=
    match apiKeys o with
    | Some m => m !! provider_name this
    | None => None
    end in
  let env : gmap string string := default ∅ (serverEnv o) in
  let urlKey := default (defaultBaseUrlKey o) (baseUrlKey (config this)) in
  let tokenKey := default (defaultApiTokenKey o) (apiTokenKey (config this)) in
  let hardcoded := or_else (defaultBaseUrl (config this)) (config_baseUrl (config this)) in
  {| baseUrl := or_else settingsBaseUrl (or_else (env !! urlKey) hardcoded);
     apiKey := or_else callKey (env !! tokenKey) |}.

End Base.

(** ** featherless.ts *)

Module FeatherlessProvider.
Import JS JS.Notations Base.

Definition this : BaseProvider := {|
  provider_name := "Featherless";
  config := {|
    baseUrlKey := Some "FEATHERLESS_API_BASE_URL";
    apiTokenKey := Some "FEATHERLESS_API_KEY";
    config_baseUrl := Some "https://api.featherless.ai/v1";
    defaultBaseUrl := None;
    config_enabled := None;
  |};
|}.

Definition staticModels : list ModelInfo := [
  {| name := JString "meta-llama/Meta-Llama-3.1-8B-Instruct";
     label := JString "LLaMA-3 8B Instruct";
     provider := provider_name this;
     maxTokenAllowed := JNumber 4096 |};
  {| name := JString "mistralai/Mistral-7B";
     label := JString "Mistral 7B";
     provider := provider_name this;
     maxTokenAllowed := JNumber 4096 |}
].

(** The arrow function passed to [data.models.map] (lines 115-120). *)
Definition toModelInfo (model : JSValue) : Outcome ModelInfo :=
  id <- getProp model "id" ;;
  d1 <- getProp model "details" ;;
  dname <- getProp d1 "name" ;;
  name_text <- ToString dname ;;
  d2 <- getProp model "details" ;;
  dsize <- getProp d2 "size" ;;
  size_text <- ToString dsize ;;
  d3 <- getProp model "details" ;;
  context_length <- getProp d3 "context_length" ;;
  Returned {| name := id;
              label := JString (name_text ++ " (" ++ size_text ++ ")");
              provider := provider_name this;
              maxTokenAllowed := context_length |}.

Definition timeout_ms : Z := 5000.

Definition resolveCredentials `{World} (apiKeys : option (gmap string string))
    (settings : SettingsArg) (serverEnv : option (gmap string string)) : ResolvedCredentials :=
  getProviderBaseUrlAndKey this {|
    apiKeys := apiKeys;
    providerSettings := settings;
    serverEnv := serverEnv;
    defaultBaseUrlKey := "FEATHERLESS_API_BASE_URL";
    defaultApiTokenKey := "FEATHERLESS_API_KEY";
  |}.

(** The request of lines 68-80. *)
Definition listingUrl (baseUrl : option string) : string := ToString_str baseUrl ++ "/models".

Definition listingInit (apiKey : option string) : Net.RequestInit := {|
  Net.signal := Some timeout_ms;
  Net.headers := [("Accept", "application/json");
                  ("Authorization", "Bearer " ++ ToString_str apiKey)];
|}.

(** The body of the outer [try] (lines 68-124). *)
Definition fetchAndMap `{World} (baseUrl apiKey : option string) : Outcome (list ModelInfo) :=
  response <- fetch (listingUrl baseUrl) (Some (listingInit apiKey)) ;;
  if negb (Net.ok response) then
    errorText <- Net.text response ;;
    Returned []
  else
    text <- Net.text response ;;
    match JSON_parse text with
    | None => Returned []
    | Some data =>
        m1 <- getProp data "models" ;;
        if negb (truthy m1) then Returned []
        else
          m2 <- getProp data "models" ;;
          if negb (isArray m2) then Returned []
          else
            m3 <- getProp data "models" ;;
            method_map m3 toModelInfo
    end.

Definition getDynamicModels `{World} (apiKeys : option (gmap string string))
    (settings : option IProviderSetting) (serverEnv : option (gmap string string))
  : Outcome (list ModelInfo) :=
  let serverEnv : gmap string string := default ∅ serverEnv in
  let creds := resolveCredentials apiKeys (OneSetting settings) (Some serverEnv) in
  if negb (truthy_str (baseUrl creds)) || negb (truthy_str (apiKey creds)) then
    Returned []
  else
    try_catch (fetchAndMap (baseUrl creds) (apiKey creds)) (fun error => Returned []).

Record InstanceOptions : Type := {
  opt_model : string;
  opt_serverEnv : option (gmap string string);
  opt_apiKeys : option (gmap string string);
  opt_providerSettings : option (gmap string IProviderSetting);
}.

Definition getModelInstance `{World} (options : InstanceOptions) : Outcome LanguageModelV1 :=
  let creds := resolveCredentials (opt_apiKeys options)
                 (SettingsByName (opt_providerSettings options)) (opt_serverEnv options) in
  if negb (truthy_str (baseUrl creds)) || negb (truthy_str (apiKey creds)) then
    Raised (mkError Error "No base URL or API key configured for Featherless")
  else
    Returned (OpenAILikeModel (ToString_str (baseUrl creds)) (ToString_str (apiKey creds))
                (opt_model options)).

End FeatherlessProvider.

(** ** ollama.ts *)

Module OllamaProvider.
Import JS JS.Notations Base.

Definition this : BaseProvider := {|
  provider_name := "Ollama";
  config := {|
    baseUrlKey := Some "OLLAMA_API_BASE_URL";
    apiTokenKey := None;
    config_baseUrl := None;
    defaultBaseUrl := Some "http://localhost:11434";
    config_enabled := Some true;
  |};
|}.

Definition staticModels : list ModelInfo := [].

(** The arrow function passed to [data.models.map] (lines 29-34). *)
Definition toModelInfo (model : JSValue) : Outcome ModelInfo :=
  n1 <- getProp model "name" ;;
  n2 <- getProp model "name" ;;
  Returned {| name := n1;
              label := n2;
              provider := provider_name this;
              maxTokenAllowed := JNumber 4096 |}.

Definition resolveCredentials `{World} (apiKeys : option (gmap string string))
    (settings : SettingsArg) (serverEnv : option (gmap string string)) : ResolvedCredentials :=
  getProviderBaseUrlAndKey this {|
    apiKeys := apiKeys;
    providerSettings := settings;
    serverEnv := serverEnv;
    defaultBaseUrlKey := "OLLAMA_API_BASE_URL";
    defaultApiTokenKey := "";
  |}.

Definition listingUrl (baseUrl : option string) : string := ToString_str baseUrl ++ "/api/tags".

(** The body of the [try] (lines 18-34) once the base URL is known. *)
Definition fetchAndMap `{World} (baseUrl : option string) : Outcome (list ModelInfo) :=
  response <- fetch (listingUrl baseUrl) None ;;
  data <- json response ;;
  models <- getProp data "models" ;;
  method_map models toModelInfo.

Definition getDynamicModels `{World} (apiKeys : option (gmap string string))
    (settings : option IProviderSetting) : Outcome (list ModelInfo) :=
  try_catch
    (let creds := resolveCredentials apiKeys (OneSetting settings) (Some ∅) in
     fetchAndMap (baseUrl creds))
    (fun error => Raised error).

Record InstanceOptions : Type := {
  opt_model : string;
  opt_serverEnv : option (gmap string string);
  opt_apiKeys : option (gmap string string);
  opt_providerSettings : option (gmap string IProviderSetting);
}.

Definition numCtx : Z := 4096.

Definition getModelInstance `{World} (options : InstanceOptions) : Outcome LanguageModelV1 :=
  let creds := resolveCredentials (opt_apiKeys options)
                 (SettingsByName (opt_providerSettings options)) (opt_serverEnv options) in
  Returned (OllamaModel (opt_model options) numCtx (ToString_str (baseUrl creds) ++ "/api")).

End OllamaProvider.

(** ** The adapter contract

    The methods every adapter exposes, as a caller holding a
    [BaseProvider] sees them: [getDynamicModels(apiKeys?, settings?,
    serverEnv?)].  The Ollama method declares two parameters, so a third
    argument is dropped by the call. *)

Module Adapter.
Import JS Base.

Record ProviderAdapter : Type := {
  adapterName : string;
  adapterStaticModels : list ModelInfo;
  adapterGetDynamicModels :
    World -> option (gmap string string) -> option IProviderSetting ->
    option (gmap string string) -> Outcome (list ModelInfo);
}.

Definition Featherless : ProviderAdapter := {|
  adapterName := provider_name FeatherlessProvider.this;
  adapterStaticModels := FeatherlessProvider.staticModels;
  adapterGetDynamicModels := fun W apiKeys settings serverEnv =>
    FeatherlessProvider.getDynamicModels apiKeys settings serverEnv;
|}.

Definition Ollama : ProviderAdapter := {|
  adapterName := provider_name OllamaProvider.this;
  adapterStaticModels := OllamaProvider.staticModels;
  adapterGetDynamicModels := fun W apiKeys settings _ =>
    OllamaProvider.getDynamicModels apiKeys settings;
|}.

Definition adapters : list ProviderAdapter := [Featherless; Ollama].

End Adapter.

(** ** The model-refresh effect of [ChatImpl] (lines 183-239) *)

Module Chat.
Import JS JS.Notations Base.

(** [ProviderInfo] of [~/types/model]; the effect reads its [name]. *)
Record ProviderInfo : Type := { providerName : string }.

(** The component state the effects read and write, the cookie jar (each
    cookie with the text that [Cookies.get] reads back), the
    notifications shown, and the exceptions that escaped an effect. *)
Record State : Type := {
  model : JSValue;
  selectedProvider : option ProviderInfo;
  modelList : list ModelInfo;
  modelLoading : option string;
  apiKeys : gmap string string;
  cookies : gmap string string;
  toasts : list string;
  uncaught : list JSError;
}.

Definition setModel (v : JSValue) (st : State) : State :=
  {| model := v; selectedProvider := selectedProvider st; modelList := modelList st;
     modelLoading := modelLoading st; apiKeys := apiKeys st; cookies := cookies st;
     toasts := toasts st; uncaught := uncaught st |}.

Definition setModelList (l : list ModelInfo) (st : State) : State :=
  {| model := model st; selectedProvider := selectedProvider st; modelList := l;
     modelLoading := modelLoading st; apiKeys := apiKeys st; cookies := cookies st;
     toasts := toasts st; uncaught := uncaught st |}.

Definition setModelLoading (v : option string) (st : State) : State :=
  {| model := model st; selectedProvider := selectedProvider st; modelList := modelList st;
     modelLoading := v; apiKeys := apiKeys st; cookies := cookies st;
     toasts := toasts st; uncaught := uncaught st |}.

(** The jar with the cookie [key] holding [text]. *)
Definition writeCookie (key text : string) (st : State) : State :=
  {| model := model st; selectedProvider := selectedProvider st; modelList := modelList st;
     modelLoading := modelLoading st; apiKeys := apiKeys st;
     cookies := <[key := text]> (cookies st);
     toasts := toasts st; uncaught := uncaught st |}.

(** [Cookies.set(key, value)] of js-cookie.  The cookie holds the string
    conversion of the value (it is written through
    [encodeURIComponent(value)] and decoded on reading), so [undefined]
    is stored as the text [undefined] and 42 as [42]; the call throws when
    the conversion does. *)
Definition Cookies_set (key : string) (value : JSValue) (st : State) : Outcome State :=
  text <- ToString value ;;
  Returned (writeCookie key text st).

Definition toast_error (msg : string) (st : State) : State :=
  {| model := model st; selectedProvider := selectedProvider st; modelList := modelList st;
     modelLoading := modelLoading st; apiKeys := apiKeys st; cookies := cookies st;
     toasts := toasts st ++ [msg]; uncaught := uncaught st |}.

Definition report (e : JSError) (st : State) : State :=
  {| model := model st; selectedProvider := selectedProvider st; modelList := modelList st;
     modelLoading := modelLoading st; apiKeys := apiKeys st; cookies := cookies st;
     toasts := toasts st; uncaught := uncaught st ++ [e] |}.

(** The body of an effect that catches nothing, run from [st]: an
    exception escapes the effect and leaves the state as it was. *)
Definition runEffect (body : Outcome State) (st : State) : State :=
  match body with
  | Returned st' => st'
  | Raised e => report e st
  | Pending => st
  end.

(** The [providerSettings] object of lines 192-197. *)
Definition providerSettings (p : ProviderInfo) : gmap string IProviderSetting :=
  {[ providerName p :=
       {| enabled := Some true;
          setting_baseUrl := if String.eqb (providerName p) "Ollama"
                             then Some "http://localhost:11434" else None |} ]}.

(** [models.some((m) => m.name === model && m.provider === provider.name)] *)
Definition currentModelExists (models : list ModelInfo) (model : JSValue) (p : ProviderInfo)
  : bool :=
  existsb (fun m => strictEq (name m) model && String.eqb (provider m) (providerName p)) models.

(** [models.find((m) => m.provider === provider.name)] *)
Definition firstModel (models : list ModelInfo) (p : ProviderInfo) : option ModelInfo :=
  List.find (fun m => String.eqb (provider m) (providerName p)) models.

(** The text of the [catch] of lines 218-221. *)
Definition fetchFailed : string :=
  "Failed to fetch available models. Please check your provider settings.".

(** One run of [fetchModels] from the state [st] of the render that
    created the effect, to the state once the run has finished.  When
    [getModelList] never settles the run stops at its [await], with the
    loading flag set.  The [catch] serves the whole [try]: an exception of
    [getModelList], and one of [Cookies.set] after [setModel] has been
    called. *)
Definition fetchModels `{World} (st : State) : State :=
  match selectedProvider st with
  | None => st
  | Some p =>
      let st0 := setModelLoading (Some (providerName p)) st in
      match getModelList {| list_apiKeys := apiKeys st;
                            list_providerSettings := providerSettings p |} with
      | Returned (Some models) =>
          let st1 := setModelList models st0 in
          let st2 :=
            if negb (currentModelExists models (model st) p) then
              match firstModel models p with
              | Some first =>
                  let selected := setModel (name first) st1 in
                  match Cookies_set "selectedModel" (name first) selected with
                  | Returned persisted => persisted
                  | Raised error => toast_error fetchFailed selected
                  | Pending => selected
                  end
              | None => st1
              end
            else st1 in
          setModelLoading None st2
      | Returned None => setModelLoading None st0
      | Raised error => setModelLoading None (toast_error fetchFailed st0)
      | Pending => st0
      end
  end.

(** The initialiser of the [model] state (lines 169-172):
    [savedModel || DEFAULT_MODEL], where [savedModel] is what
    [Cookies.get('selectedModel')] answered and [DEFAULT_MODEL] is the
    constant of utils/constants.ts. *)
Definition initialModel (savedModel : option string) (DEFAULT_MODEL : string) : string :=
  match savedModel with
  | Some s => if String.eqb s "" then DEFAULT_MODEL else s
  | None => DEFAULT_MODEL
  end.

(** The initialiser of the [provider] state (lines 174-177):
    [PROVIDER_LIST.find((p) => p.name === savedProvider) || DEFAULT_PROVIDER].
    The constant is cast to [ProviderInfo]; the effects test it before
    use, so it may be [undefined]. *)
Definition initialProvider (savedProvider : option string) (PROVIDER_LIST : list ProviderInfo)
    (DEFAULT_PROVIDER : option ProviderInfo) : option ProviderInfo :=
  match List.find (fun p => match savedProvider with
                            | Some s => String.eqb (providerName p) s
                            | None => false
                            end) PROVIDER_LIST with
  | Some p => Some p
  | None => DEFAULT_PROVIDER
  end.

(** The state of the first render (lines 169-181) over the cookie jar
    [jar]. *)
Definition initialState (savedModel savedProvider : option string) (jar : gmap string string)
    (DEFAULT_MODEL : string) (PROVIDER_LIST : list ProviderInfo)
    (DEFAULT_PROVIDER : option ProviderInfo) : State :=
  {| model := JString (initialModel savedModel DEFAULT_MODEL);
     selectedProvider := initialProvider savedProvider PROVIDER_LIST DEFAULT_PROVIDER;
     modelList := [];
     modelLoading := None;
     apiKeys := ∅;
     cookies := jar;
     toasts := [];
     uncaught := [] |}.

(** The effect on [[provider]] (lines 229-233). *)
Definition persistProvider (st : State) : State :=
  match selectedProvider st with
  | Some p => runEffect (Cookies_set "selectedProvider" (JString (providerName p)) st) st
  | None => st
  end.

(** The effect on [[model]] (lines 235-239). *)
Definition persistModel (st : State) : State :=
  if truthy (model st) then runEffect (Cookies_set "selectedModel" (model st) st) st else st.

(** The [selectedModel] cookie holds the text of the selected model. *)
Definition inSync (st : State) : Prop :=
  exists text, ToString (model st) = Returned text /\ cookies st !! "selectedModel" = Some text.

End Chat.

(** ** Views of a listing exchange, used to state the properties *)

Module Listing.
Import JS Base Net.

(** The peer's answer to the listing request of each adapter. *)
Definition featherlessReply `{World} (creds : ResolvedCredentials) : ServerBehaviour :=
  server (FeatherlessProvider.listingUrl (baseUrl creds))
         (headers (FeatherlessProvider.listingInit (apiKey creds))).

Definition ollamaReply `{World} (creds : ResolvedCredentials) : ServerBehaviour :=
  server (OllamaProvider.listingUrl (baseUrl creds)) [].

Definition credentialsMissing (creds : ResolvedCredentials) : bool :=
  negb (truthy_str (baseUrl creds)) || negb (truthy_str (apiKey creds)).

(** The credentials each adapter's [getDynamicModels] works with. *)
Definition featherlessCredentials `{World} (apiKeys : option (gmap string string))
    (settings : option IProviderSetting) (serverEnv : option (gmap string string))
  : ResolvedCredentials :=
  FeatherlessProvider.resolveCredentials apiKeys (OneSetting settings)
    (Some (default ∅ serverEnv)).

Definition ollamaCredentials `{World} (apiKeys : option (gmap string string))
    (settings : option IProviderSetting) : ResolvedCredentials :=
  OllamaProvider.resolveCredentials apiKeys (OneSetting settings) (Some ∅).

(** [data.models] when it is an array. *)
Definition modelsArray (data : JSValue) : option (list JSValue) :=
  match getProp data "models" with
  | Returned (JArray l) => Some l
  | _ => None
  end.

(** The failures of a listing exchange that both adapters can meet: the
    network fails, the body cannot be read, the body is not JSON, or the
    document has no [models] array. *)
Inductive ResponseFailure (parse : string -> option JSValue) : ServerBehaviour -> Prop :=
| NetworkFailure e :
    ResponseFailure parse (Unreachable e)
| BodyUnreadable ms r e :
    body r = BodyError e ->
    ResponseFailure parse (Responds ms r)
| MalformedJson ms r s :
    body r = BodyText s -> parse s = None ->
    ResponseFailure parse (Responds ms r)
| NoModelsArray ms r s data :
    body r = BodyText s -> parse s = Some data -> modelsArray data = None ->
    ResponseFailure parse (Responds ms r).

(** A response with a non-success status whose body can be read or fails
    to be read (it does not stall). *)
Inductive NonSuccess : ServerBehaviour -> Prop :=
| NonSuccessStatus ms r :
    ok r = false -> body r <> BodyStalls -> NonSuccess (Responds ms r).

(** No response within [limit] milliseconds. *)
Inductive Unanswered (limit : Z) : ServerBehaviour -> Prop :=
| NeverAnswered : Unanswered limit Silent
| AnsweredLate ms r : limit <= ms -> Unanswered limit (Responds ms r).

(** A response in time, with a success status, whose body parses to a
    document with the array [models] of records. *)
Inductive Listed (parse : string -> option JSValue) (limit : option Z) (models : list JSValue)
  : ServerBehaviour -> Prop :=
| ListedIn ms r s data :
    match limit with Some t => ms < t | None => True end ->
    ok r = true -> body r = BodyText s -> parse s = Some data ->
    modelsArray data = Some models ->
    Listed parse limit models (Responds ms r).

(** The record's [details.context_length], read as the Featherless mapping
    reads it. *)
Definition reportedContextLength (model : JSValue) : Outcome JSValue :=
  bind (getProp model "details") (fun d => getProp d "context_length").

Definition isObject (v : JSValue) : bool :=
  match v with JObject _ => true | _ => false end.

Definition isString (v : JSValue) : bool :=
  match v with JString _ => true | _ => false end.

Definition nullish (v : JSValue) : bool :=
  match v with JUndefined | JNull => true | _ => false end.

(** [v.k] where the read does not throw. *)
Definition member (k : string) (v : JSValue) : JSValue :=
  match getProp v k with
  | Returned w => w
  | _ => JUndefined
  end.

(** The values whose string conversion does not throw. *)
Definition printable (v : JSValue) : bool :=
  match ToString v with
  | Returned _ => true
  | _ => false
  end.

(** A record as [FeatherlessModel] declares it where the mapping makes
    text of it: an object whose [details] is an object with strings for
    [name] and [size]. *)
Definition featherlessTyped (model : JSValue) : bool :=
  match model with
  | JObject ms =>
      match lookup_member "details" ms with
      | Some d => isObject d && isString (member "name" d) && isString (member "size" d)
      | None => false
      end
  | _ => false
  end.

(** The records on which the Featherless mapping does not throw: objects
    with a [details] member that is neither [undefined] nor [null] and
    whose [name] and [size] have a string conversion. *)
Definition featherlessMappable (model : JSValue) : bool :=
  match model with
  | JObject ms =>
      match lookup_member "details" ms with
      | Some d => negb (nullish d) && printable (member "name" d) && printable (member "size" d)
      | None => false
      end
  | _ => false
  end.

(** The records on which the Ollama mapping does not throw. *)
Definition ollamaMappable (model : JSValue) : bool := negb (nullish model).

End Listing.

(** ** Concrete worlds, for the examples *)

Module Scenario.
Import JS Base Net.

Definition worldWith (resolver : BaseProvider -> ResolverOptions -> ResolvedCredentials)
    (peer : string -> list (string * string) -> ServerBehaviour)
    (models : Outcome (option (list ModelInfo))) : World := {|
  getProviderBaseUrlAndKey := resolver;
  JSON_parse := JSON.parse;
  server := peer;
  getModelList := fun _ => models;
|}.

Definition down : string -> list (string * string) -> ServerBehaviour :=
  fun _ _ => Unreachable (mkError TypeError "fetch failed").

Definition silent : string -> list (string * string) -> ServerBehaviour :=
  fun _ _ => Silent.

Definition replies (ms code : Z) (b : Body) : string -> list (string * string) -> ServerBehaviour :=
  fun _ _ => Responds ms {| status := code; statusText := "OK"; body := b |}.

(** A Featherless peer that answers the listing URL only when the bearer
    token is [sk-1]. *)
Definition featherlessPeer (b : string) : string -> list (string * string) -> ServerBehaviour :=
  fun url hs =>
    if String.eqb url "https://api.featherless.ai/v1/models" then
      if existsb (fun h => String.eqb (fst h) "Authorization" && String.eqb (snd h) "Bearer sk-1") hs
      then Responds 120 {| status := 200; statusText := "OK"; body := BodyText b |}
      else Responds 80 {| status := 401; statusText := "Unauthorized"; body := BodyText "denied" |}
    else Unreachable (mkError TypeError "fetch failed").

(** A local Ollama daemon. *)
Definition ollamaPeer (b : string) : string -> list (string * string) -> ServerBehaviour :=
  fun url _ =>
    if String.eqb url "http://localhost:11434/api/tags" then
      Responds 15 {| status := 200; statusText := "OK"; body := BodyText b |}
    else Unreachable (mkError TypeError "fetch failed").

(** The response bodies of the specification's examples ([JSON.dq] turns
    the apostrophes into double quotes). *)
Definition featherlessBody : string :=
  JSON.dq "{'models':[{'id':'m1','details':{'name':'Model One','size':'7B','context_length':8192}}]}".

Definition featherlessBodyNoContext : string :=
  JSON.dq "{'models':[{'id':'m1','details':{'name':'Model One','size':'7B'}}]}".

Definition ollamaBody : string :=
  JSON.dq "{'models':[{'name':'llama2'}]}".

Definition featherlessKey : option (gmap string string) := Some {[ "Featherless" := "sk-1" ]}.

Definition unresolved : BaseProvider -> ResolverOptions -> ResolvedCredentials :=
  fun _ _ => {| baseUrl := None; apiKey := None |}.

Definition featherlessWorld (b : string) : World :=
  worldWith resolve (featherlessPeer b) Pending.

Definition ollamaWorld (b : string) : World :=
  worldWith resolve (ollamaPeer b) Pending.

Definition featherlessOptions (keys : option (gmap string string))
  : FeatherlessProvider.InstanceOptions := {|
  FeatherlessProvider.opt_model := "m1";
  FeatherlessProvider.opt_serverEnv := None;
  FeatherlessProvider.opt_apiKeys := keys;
  FeatherlessProvider.opt_providerSettings := None;
|}.

Definition ollamaOptions : OllamaProvider.InstanceOptions := {|
  OllamaProvider.opt_model := "llama2";
  OllamaProvider.opt_serverEnv := None;
  OllamaProvider.opt_apiKeys := None;
  OllamaProvider.opt_providerSettings := None;
|}.

(** A chat whose selection is still a model of another provider when the
    list for Ollama arrives. *)
Definition fetchedModels : list ModelInfo := [
  {| name := JString "gpt-4o"; label := JString "GPT-4o"; provider := "OpenAI";
     maxTokenAllowed := JNumber 8000 |};
  {| name := JString "llama2"; label := JString "llama2"; provider := "Ollama";
     maxTokenAllowed := JNumber 4096 |};
  {| name := JString "mistral"; label := JString "mistral"; provider := "Ollama";
     maxTokenAllowed := JNumber 4096 |}
].

Definition chatWorld : World := worldWith resolve down (Returned (Some fetchedModels)).

Definition chatState : Chat.State := {|
  Chat.model := JString "gpt-4o";
  Chat.selectedProvider := Some {| Chat.providerName := "Ollama" |};
  Chat.modelList := [];
  Chat.modelLoading := None;
  Chat.apiKeys := ∅;
  Chat.cookies := {[ "selectedModel" := "gpt-4o" ]};
  Chat.toasts := [];
  Chat.uncaught := [];
|}.

(** [Cookies.get(key)] as a reader of the jar. *)
Definition readCookie (key : string) (jar : gmap string string) : option string :=
  jar !! key.

Definition providerList : list Chat.ProviderInfo :=
  [ {| Chat.providerName := "OpenAI" |};
    {| Chat.providerName := "Ollama" |};
    {| Chat.providerName := "Featherless" |} ].

Definition defaultProvider : option Chat.ProviderInfo :=
  Some {| Chat.providerName := "OpenAI" |}.

(** A listing whose second record is [null]. *)
Definition featherlessBodyNullRecord : string :=
  JSON.dq "{'models':[{'id':'m1','details':{'name':'Model One','size':'7B','context_length':8192}},null]}".

(** A record whose [details] name neither the model nor its size. *)
Definition featherlessBodyBareDetails : string :=
  JSON.dq "{'models':[{'id':'m2','details':{}}]}".

(** A daemon that answers 500 with a listing in the body, after a while. *)
Definition ollamaPeerFailing (b : string) : string -> list (string * string) -> ServerBehaviour :=
  fun _ _ => Responds 9000 {| status := 500; statusText := "Internal Server Error";
                             body := BodyText b |}.

Definition stalling : string -> list (string * string) -> ServerBehaviour :=
  fun _ _ => Responds 40 {| status := 200; statusText := "OK"; body := BodyStalls |}.

Definition chatWorldFailing : World :=
  worldWith resolve down (Raised (mkError Error "fetch failed")).

Definition chatWorldNoOllama : World :=
  worldWith resolve down
    (Returned (Some [ {| name := JString "gpt-4o"; label := JString "GPT-4o";
                         provider := "OpenAI"; maxTokenAllowed := JNumber 8000 |} ])).

Definition chatStateOpenAI : Chat.State := {|
  Chat.model := JString "gpt-3.5";
  Chat.selectedProvider := Some {| Chat.providerName := "Ollama" |};
  Chat.modelList := [];
  Chat.modelLoading := None;
  Chat.apiKeys := ∅;
  Chat.cookies := {[ "selectedModel" := "gpt-3.5"; "selectedProvider" := "Ollama" ]};
  Chat.toasts := [];
  Chat.uncaught := [];
|}.

End Scenario.

(** * Properties *)

Import JS JS.Notations Base Net Listing.

(** ** Exceptions, property reads and [map] *)

Lemma getProp_settles (v : JSValue) (k : string) : getProp v k <> Pending.
Proof. destruct v; discriminate. Qed.

Lemma elementTexts_settles (text : JSValue -> Outcome string) (l : list JSValue) :
  Forall (fun x => text x <> Pending) l -> elementTexts text l <> Pending.
Proof.
  induction 1 as [|x l Hx _ IH]; simpl; [discriminate|].
  destruct (text x); simpl; try congruence.
  destruct (elementTexts text l); simpl; congruence.
Qed.

Lemma ToString_settles : forall v : JSValue, ToString v <> Pending.
Proof.
  fix IH 1. intros [ | |[|]|n|s|l|ms]; simpl; try discriminate.
  - assert (Hl : Forall (fun x => match x with
                                  | JUndefined | JNull => Returned ""
                                  | _ => ToString x
                                  end <> Pending) l).
    { induction l as [|x l IHl]; constructor; [|exact IHl].
      pose proof (IH x) as Hx. destruct x; try discriminate; exact Hx. }
    apply elementTexts_settles in Hl. destruct (elementTexts _ l); simpl; congruence.
  - destruct (lookup_member "toString" ms); discriminate.
Qed.

Lemma try_catch_returning {A : Type} (m : Outcome A) (a : A) (e : JSError) :
  try_catch m (fun _ => Returned a) <> Raised e.
Proof. destruct m; discriminate. Qed.

Lemma try_catch_rethrow {A : Type} (m : Outcome A) :
  try_catch m (fun error => Raised error) = m.
Proof. now destruct m. Qed.

Lemma modelsArray_Some (data : JSValue) (models : list JSValue) :
  modelsArray data = Some models <-> getProp data "models" = Returned (JArray models).
Proof.
  unfold modelsArray. split.
  - destruct (getProp data "models") as [[]| |]; congruence.
  - now intros ->.
Qed.

Lemma modelsArray_None (data : JSValue) :
  modelsArray data = None ->
  (exists e, getProp data "models" = Raised e) \/
  (exists v, getProp data "models" = Returned v /\ isArray v = false).
Proof.
  unfold modelsArray. pose proof (getProp_settles data "models") as Hp.
  destruct (getProp data "models") as [v|e|]; [|eauto|congruence].
  destruct v; try discriminate; intros _; right; eexists; split; reflexivity.
Qed.

Lemma Forall2_right {A B : Type} (R : A -> B -> Prop) (P : B -> Prop)
    (l : list A) (l' : list B) :
  (forall x y, R x y -> P y) -> Forall2 R l l' -> Forall P l'.
Proof. intros HR. induction 1; constructor; eauto. Qed.

Section ArrayMap.
Context {B : Type} (f : JSValue -> Outcome B).

Lemma Array_map_Returned (l : list JSValue) (l' : list B) :
  Array_map f l = Returned l' -> Forall2 (fun x y => f x = Returned y) l l'.
Proof.
  revert l'. induction l as [|x l IH]; intros l' Hm; simpl in Hm.
  - injection Hm as <-. constructor.
  - destruct (f x) as [y| |] eqn:Hx; try discriminate. simpl in Hm.
    destruct (Array_map f l) as [ys| |]; try discriminate. simpl in Hm.
    injection Hm as <-. constructor; auto.
Qed.

Lemma Array_map_total (l : list JSValue) :
  Forall (fun x => exists y, f x = Returned y) l ->
  exists l', Array_map f l = Returned l' /\ length l' = length l.
Proof.
  induction 1 as [|x l [y Hy] _ [ys [Hys Hlen]]]; simpl.
  - exists []. split; reflexivity.
  - rewrite Hy, Hys. simpl. exists (y :: ys). split; [reflexivity|simpl; congruence].
Qed.

Lemma Array_map_settles (l : list JSValue) :
  (forall x, f x <> Pending) -> Array_map f l <> Pending.
Proof.
  intros Hf. induction l as [|x l IH]; simpl; [discriminate|].
  specialize (Hf x). destruct (f x); simpl; try congruence.
  destruct (Array_map f l); simpl; congruence.
Qed.
End ArrayMap.

(** ** The Featherless adapter *)

Section FeatherlessFacts.
Context `{W : World}.
Variables (keys : option (gmap string string)) (settings : option IProviderSetting)
          (env : option (gmap string string)).

Abbreviation creds := (featherlessCredentials keys settings env).
Abbreviation run := (FeatherlessProvider.getDynamicModels keys settings env).

Lemma featherless_missing_credentials :
  credentialsMissing creds = true -> run = Returned [].
Proof.
  unfold FeatherlessProvider.getDynamicModels, credentialsMissing, featherlessCredentials.
  now intros ->.
Qed.

Lemma featherless_with_credentials :
  credentialsMissing creds = false ->
  run = try_catch (FeatherlessProvider.fetchAndMap (baseUrl creds) (apiKey creds))
                  (fun _ => Returned []).
Proof.
  unfold FeatherlessProvider.getDynamicModels, credentialsMissing, featherlessCredentials.
  now intros ->.
Qed.

Lemma featherless_never_raises (e : JSError) : run <> Raised e.
Proof.
  destruct (credentialsMissing creds) eqn:Hc.
  - rewrite featherless_missing_credentials by assumption. discriminate.
  - rewrite featherless_with_credentials by assumption. apply try_catch_returning.
Qed.

(** What the steps after a response in time amount to. *)
Lemma featherless_fetch_in_time (ms : Z) (r : Response) :
  featherlessReply creds = Responds ms r -> ms < FeatherlessProvider.timeout_ms ->
  fetch (FeatherlessProvider.listingUrl (baseUrl creds))
        (Some (FeatherlessProvider.listingInit (apiKey creds))) = Returned r.
Proof.
  unfold featherlessReply, fetch, fetch_from. simpl. intros -> Hms.
  apply Z.ltb_lt in Hms. now rewrite Hms.
Qed.

Lemma featherless_fetch_unanswered (b : ServerBehaviour) :
  featherlessReply creds = b -> Unanswered FeatherlessProvider.timeout_ms b ->
  fetch (FeatherlessProvider.listingUrl (baseUrl creds))
        (Some (FeatherlessProvider.listingInit (apiKey creds))) = Raised abortError.
Proof.
  unfold featherlessReply, fetch, fetch_from. simpl. intros -> [|ms r Hms]; [reflexivity|].
  apply Z.ltb_ge in Hms. now rewrite Hms.
Qed.

Lemma featherless_fetch_cases :
  let f := fetch (FeatherlessProvider.listingUrl (baseUrl creds))
                 (Some (FeatherlessProvider.listingInit (apiKey creds))) in
  (exists e, f = Raised e) \/
  (exists ms r, featherlessReply creds = Responds ms r /\
                ms < FeatherlessProvider.timeout_ms /\ f = Returned r).
Proof.
  unfold featherlessReply, fetch, fetch_from. simpl.
  destruct (server _ _) as [e| |ms r]; eauto.
  destruct (ms <? FeatherlessProvider.timeout_ms) eqn:Hms; eauto.
  apply Z.ltb_lt in Hms. right. eauto.
Qed.

Lemma featherless_listed (models : list JSValue) :
  credentialsMissing creds = false ->
  Listed JSON_parse (Some FeatherlessProvider.timeout_ms) models (featherlessReply creds) ->
  run = try_catch (Array_map FeatherlessProvider.toModelInfo models) (fun _ => Returned []).
Proof.
  intros Hc HL. rewrite featherless_with_credentials by assumption.
  inversion HL as [ms r s data Hms Hok Hbody Hparse Hmodels Hreply].
  symmetry in Hreply. unfold FeatherlessProvider.fetchAndMap.
  rewrite (featherless_fetch_in_time ms r Hreply Hms). simpl.
  rewrite Hok. simpl. unfold text. rewrite Hbody. simpl. rewrite Hparse.
  apply modelsArray_Some in Hmodels. rewrite Hmodels. reflexivity.
Qed.

Lemma featherless_response_failure :
  credentialsMissing creds = false ->
  ResponseFailure JSON_parse (featherlessReply creds) ->
  run = Returned [].
Proof.
  intros Hc HF. rewrite featherless_with_credentials by assumption.
  unfold FeatherlessProvider.fetchAndMap.
  destruct featherless_fetch_cases as [[e ->]|(ms & r & Hreply & Hms & ->)]; [reflexivity|].
  simpl. rewrite Hreply in HF. unfold text.
  inversion HF as [|? ? e Hbody|? ? s Hbody Hparse|? ? s data Hbody Hparse Hmodels]; subst;
    rewrite Hbody; destruct (ok r); simpl; try reflexivity.
  - now rewrite Hparse.
  - rewrite Hparse. apply modelsArray_None in Hmodels.
    destruct Hmodels as [[e ->]|(v & -> & Hv)]; [reflexivity|]. simpl.
    destruct (truthy v); simpl; [|reflexivity]. now rewrite Hv.
Qed.

Lemma featherless_non_success :
  credentialsMissing creds = false ->
  NonSuccess (featherlessReply creds) ->
  run = Returned [].
Proof.
  intros Hc HN. rewrite featherless_with_credentials by assumption.
  unfold FeatherlessProvider.fetchAndMap.
  destruct featherless_fetch_cases as [[e ->]|(ms & r & Hreply & Hms & ->)]; [reflexivity|].
  simpl. rewrite Hreply in HN. inversion HN as [? ? Hok Hbody]; subst.
  rewrite Hok. simpl. unfold text. destruct (body r); simpl; congruence.
Qed.

Lemma featherless_unanswered :
  credentialsMissing creds = false ->
  Unanswered FeatherlessProvider.timeout_ms (featherlessReply creds) ->
  run = Returned [].
Proof.
  intros Hc HU. rewrite featherless_with_credentials by assumption.
  unfold FeatherlessProvider.fetchAndMap.
  now rewrite (featherless_fetch_unanswered _ eq_refl HU).
Qed.

(** The timer is cleared as soon as the response has arrived: a body that
    never completes leaves the call pending. *)
Lemma featherless_body_stalls (ms : Z) (r : Response) :
  credentialsMissing creds = false ->
  featherlessReply creds = Responds ms r -> ms < FeatherlessProvider.timeout_ms ->
  body r = BodyStalls ->
  run = Pending.
Proof.
  intros Hc Hreply Hms Hbody. rewrite featherless_with_credentials by assumption.
  unfold FeatherlessProvider.fetchAndMap.
  rewrite (featherless_fetch_in_time ms r Hreply Hms). simpl. unfold text. rewrite Hbody.
  now destruct (ok r).
Qed.

(** A non-empty result comes from a listed response, record by record. *)
Lemma featherless_returned_inv (l : list ModelInfo) :
  run = Returned l ->
  l = [] \/
  exists models,
    Listed JSON_parse (Some FeatherlessProvider.timeout_ms) models (featherlessReply creds) /\
    Array_map FeatherlessProvider.toModelInfo models = Returned l.
Proof.
  destruct (credentialsMissing creds) eqn:Hc.
  { rewrite featherless_missing_credentials by assumption. intros [= <-]. now left. }
  rewrite featherless_with_credentials by assumption.
  unfold FeatherlessProvider.fetchAndMap.
  destruct featherless_fetch_cases as [[e ->]|(ms & r & Hreply & Hms & ->)].
  { simpl. intros [= <-]. now left. }
  simpl. unfold text. destruct (ok r) eqn:Hok; simpl.
  2:{ destruct (body r); simpl; intros [= <-]; now left. }
  destruct (body r) as [s|e|] eqn:Hbody; simpl; try (intros [= <-]; now left).
  destruct (JSON_parse s) as [data|] eqn:Hparse; try (intros [= <-]; now left).
  destruct (getProp data "models") as [v|e|] eqn:Hget; simpl; try (intros [= <-]; now left).
  destruct (truthy v); simpl; try (intros [= <-]; now left).
  destruct v; simpl; try (intros [= <-]; now left).
  intros Hmap. destruct (Array_map _ elems) as [l'| |] eqn:Hm; simpl in Hmap;
    try (injection Hmap as <-; now left); try discriminate.
  injection Hmap as <-. right. exists elems. split; [|exact Hm].
  rewrite Hreply. eapply ListedIn; eauto. now apply modelsArray_Some.
Qed.

End FeatherlessFacts.

Lemma featherless_toModelInfo_inv (model : JSValue) (m : ModelInfo) :
  FeatherlessProvider.toModelInfo model = Returned m ->
  provider m = "Featherless" /\
  getProp model "id" = Returned (name m) /\
  reportedContextLength model = Returned (maxTokenAllowed m).
Proof.
  unfold FeatherlessProvider.toModelInfo, reportedContextLength.
  destruct (getProp model "id") as [id| |]; simpl; try discriminate.
  destruct (getProp model "details") as [d| |]; simpl; try discriminate.
  destruct (getProp d "name") as [n| |]; simpl; try discriminate.
  destruct (ToString n) as [nt| |]; simpl; try discriminate.
  destruct (getProp d "size") as [z| |]; simpl; try discriminate.
  destruct (ToString z) as [zt| |]; simpl; try discriminate.
  destruct (getProp d "context_length") as [c| |]; simpl; try discriminate.
  intros [= <-]. simpl. auto.
Qed.

Lemma featherless_toModelInfo_total (model : JSValue) :
  featherlessTyped model = true -> exists m, FeatherlessProvider.toModelInfo model = Returned m.
Proof.
  unfold featherlessTyped, FeatherlessProvider.toModelInfo, member.
  destruct model as [ | | | | | |ms]; try discriminate. simpl.
  destruct (lookup_member "details" ms) as [d|]; try discriminate.
  destruct d as [ | | | | | |ds]; try discriminate. simpl.
  destruct (default JUndefined (lookup_member "name" ds)); try discriminate.
  destruct (default JUndefined (lookup_member "size" ds)); try discriminate.
  intros _. simpl. eauto.
Qed.

(** ** The Ollama adapter *)

Lemma ollama_toModelInfo_inv (model : JSValue) (m : ModelInfo) :
  OllamaProvider.toModelInfo model = Returned m ->
  provider m = "Ollama" /\
  getProp model "name" = Returned (name m) /\
  label m = name m /\
  maxTokenAllowed m = JNumber 4096.
Proof.
  unfold OllamaProvider.toModelInfo.
  destruct (getProp model "name") as [n| |]; simpl; try discriminate.
  intros [= <-]. simpl. auto.
Qed.

Lemma ollama_toModelInfo_total (model : JSValue) :
  isObject model = true -> exists m, OllamaProvider.toModelInfo model = Returned m.
Proof.
  destruct model; try discriminate. intros _. unfold OllamaProvider.toModelInfo. simpl. eauto.
Qed.

Section OllamaFacts.
Context `{W : World}.
Variables (keys : option (gmap string string)) (settings : option IProviderSetting).

Abbreviation ocreds := (ollamaCredentials keys settings).
Abbreviation orun := (OllamaProvider.getDynamicModels keys settings).

Lemma ollama_run : orun = OllamaProvider.fetchAndMap (baseUrl ocreds).
Proof. unfold OllamaProvider.getDynamicModels. apply try_catch_rethrow. Qed.

Lemma ollama_fetch :
  fetch (OllamaProvider.listingUrl (baseUrl ocreds)) None =
  match ollamaReply ocreds with
  | Unreachable e => Raised e
  | Silent => Pending
  | Responds _ r => Returned r
  end.
Proof. unfold fetch, fetch_from, ollamaReply. simpl. now destruct (server _ _). Qed.

Lemma ollama_unanswered : ollamaReply ocreds = Silent -> orun = Pending.
Proof.
  intros Hreply. rewrite ollama_run. unfold OllamaProvider.fetchAndMap.
  now rewrite ollama_fetch, Hreply.
Qed.

(** The status of the response and the time it took play no part. *)
Lemma ollama_listed (ms : Z) (r : Response) (s : string) (data : JSValue)
    (models : list JSValue) :
  ollamaReply ocreds = Responds ms r -> body r = BodyText s ->
  JSON_parse s = Some data -> modelsArray data = Some models ->
  orun = Array_map OllamaProvider.toModelInfo models.
Proof.
  intros Hreply Hbody Hparse Hmodels. rewrite ollama_run. unfold OllamaProvider.fetchAndMap.
  rewrite ollama_fetch, Hreply. simpl. unfold json, json_with, text. rewrite Hbody. simpl.
  rewrite Hparse. simpl. apply modelsArray_Some in Hmodels. now rewrite Hmodels.
Qed.

Lemma ollama_response_failure :
  ResponseFailure JSON_parse (ollamaReply ocreds) -> exists e, orun = Raised e.
Proof.
  intros HF. rewrite ollama_run. unfold OllamaProvider.fetchAndMap. rewrite ollama_fetch.
  inversion HF as [e Hreply|ms r e Hbody Hreply|ms r s Hbody Hparse Hreply
                  |ms r s data Hbody Hparse Hmodels Hreply]; simpl;
    unfold json, json_with, text; try rewrite Hbody; simpl; eauto.
  - rewrite Hparse. simpl. eauto.
  - rewrite Hparse. simpl. apply modelsArray_None in Hmodels.
    destruct Hmodels as [[e ->]|(v & -> & Hv)]; simpl; eauto.
    destruct v; try discriminate; simpl; eauto.
Qed.

Lemma ollama_returned_inv (l : list ModelInfo) :
  orun = Returned l ->
  exists ms r s data models,
    ollamaReply ocreds = Responds ms r /\ body r = BodyText s /\
    JSON_parse s = Some data /\ modelsArray data = Some models /\
    Array_map OllamaProvider.toModelInfo models = Returned l.
Proof.
  rewrite ollama_run. unfold OllamaProvider.fetchAndMap. rewrite ollama_fetch.
  destruct (ollamaReply ocreds) as [e| |ms r] eqn:Hreply; simpl; try discriminate.
  unfold json, json_with, text. destruct (body r) as [s|e|] eqn:Hbody; simpl; try discriminate.
  destruct (JSON_parse s) as [data|] eqn:Hparse; simpl; try discriminate.
  destruct (getProp data "models") as [v|e|] eqn:Hget; simpl; try discriminate.
  destruct v; simpl; try discriminate. intros Hmap.
  exists ms, r, s, data, elems. repeat split; auto. now apply modelsArray_Some.
Qed.

End OllamaFacts.

(** * The stated properties *)

(** ** Listing failures *)

(** C1, as amended.  The Featherless adapter's [getDynamicModels] never
    raises, and returns the empty sequence when the credentials are
    missing, the network fails, the status is not a success, the body
    cannot be read or is not JSON, or the document has no [models] array.
    The Ollama adapter logs and re-raises what it catches: on a network
    failure, an unreadable or malformed body or a document without a
    [models] array its [getDynamicModels] raises. *)
Theorem C1_listing_failures `{W : World} (keys : option (gmap string string))
    (settings : option IProviderSetting) (env : option (gmap string string)) :
  (forall e, FeatherlessProvider.getDynamicModels keys settings env <> Raised e) /\
  (credentialsMissing (featherlessCredentials keys settings env) = true \/
   ResponseFailure JSON_parse (featherlessReply (featherlessCredentials keys settings env)) \/
   NonSuccess (featherlessReply (featherlessCredentials keys settings env)) ->
   FeatherlessProvider.getDynamicModels keys settings env = Returned []) /\
  (ResponseFailure JSON_parse (ollamaReply (ollamaCredentials keys settings)) ->
   exists e, OllamaProvider.getDynamicModels keys settings = Raised e).
Proof.
  split; [|split].
  - intros e. apply featherless_never_raises.
  - intros H.
    destruct (credentialsMissing (featherlessCredentials keys settings env)) eqn:Hc.
    + now apply featherless_missing_credentials.
    + destruct H as [H|[H|H]]; [discriminate| |].
      * now apply featherless_response_failure.
      * now apply featherless_non_success.
  - apply ollama_response_failure.
Qed.

Lemma C1_listing_failures_witness :
  @FeatherlessProvider.getDynamicModels (Scenario.featherlessWorld "not json")
     Scenario.featherlessKey None None = Returned [] /\
  exists e, @OllamaProvider.getDynamicModels (Scenario.ollamaWorld "not json")
              Scenario.featherlessKey None = Raised e.
Proof.
  pose proof (@C1_listing_failures (Scenario.featherlessWorld "not json")
                Scenario.featherlessKey None None) as (_ & HF & _).
  pose proof (@C1_listing_failures (Scenario.ollamaWorld "not json")
                Scenario.featherlessKey None None) as (_ & _ & HO).
  split.
  - apply HF. right. left.
    apply (MalformedJson _ 120 {| status := 200; statusText := "OK"; body := BodyText "not json" |}
             "not json"); reflexivity.
  - apply HO.
    apply (MalformedJson _ 15 {| status := 200; statusText := "OK"; body := BodyText "not json" |}
             "not json"); reflexivity.
Defined.

(** C1 as stated fails for the Ollama adapter: with the network down the
    call is on the listing failure path and raises the error of [fetch]. *)
Lemma C1_counterexample_ollama_rethrows :
  let W := Scenario.worldWith resolve Scenario.down Pending in
  ResponseFailure (@JSON_parse W) (@ollamaReply W (@ollamaCredentials W None None)) /\
  Adapter.adapterGetDynamicModels Adapter.Ollama W None None None
    = Raised (mkError TypeError "fetch failed") /\
  Adapter.adapterGetDynamicModels Adapter.Ollama W None None None <> Returned [].
Proof.
  split; [|split].
  - apply NetworkFailure.
  - reflexivity.
  - discriminate.
Qed.

(** ** Model instances *)

(** C2, as amended.  The Featherless adapter's [getModelInstance] raises
    [Error('No base URL or API key configured for Featherless')] whenever
    the base URL or the API key is not resolved, and returns a handle
    otherwise.  The Ollama adapter has no API key: its [getModelInstance]
    asks for none, and with a base URL resolved it returns a handle whose
    base URL is that URL followed by [/api]. *)
Theorem C2_model_instance `{W : World} (fo : FeatherlessProvider.InstanceOptions)
    (oo : OllamaProvider.InstanceOptions) :
  let fc := FeatherlessProvider.resolveCredentials (FeatherlessProvider.opt_apiKeys fo)
              (SettingsByName (FeatherlessProvider.opt_providerSettings fo))
              (FeatherlessProvider.opt_serverEnv fo) in
  let oc := OllamaProvider.resolveCredentials (OllamaProvider.opt_apiKeys oo)
              (SettingsByName (OllamaProvider.opt_providerSettings oo))
              (OllamaProvider.opt_serverEnv oo) in
  (credentialsMissing fc = true ->
   FeatherlessProvider.getModelInstance fo
     = Raised (mkError Error "No base URL or API key configured for Featherless")) /\
  (credentialsMissing fc = false ->
   exists url key, baseUrl fc = Some url /\ apiKey fc = Some key /\
     FeatherlessProvider.getModelInstance fo
       = Returned (OpenAILikeModel url key (FeatherlessProvider.opt_model fo))) /\
  (truthy_str (baseUrl oc) = true ->
   exists url, baseUrl oc = Some url /\
     OllamaProvider.getModelInstance oo
       = Returned (OllamaModel (OllamaProvider.opt_model oo) 4096 (url ++ "/api"))).
Proof.
  cbv zeta. unfold FeatherlessProvider.getModelInstance, credentialsMissing.
  split; [|split].
  - now intros ->.
  - intros Hc. rewrite Hc.
    destruct (baseUrl _) as [url|]; [|discriminate].
    destruct (apiKey _) as [key|]; [|rewrite orb_true_r in Hc; discriminate].
    exists url, key. auto.
  - unfold OllamaProvider.getModelInstance.
    destruct (baseUrl _) as [url|]; [|discriminate]. intros _. exists url. auto.
Qed.

Lemma C2_model_instance_witness :
  @FeatherlessProvider.getModelInstance (Scenario.featherlessWorld "") (Scenario.featherlessOptions None)
    = Raised (mkError Error "No base URL or API key configured for Featherless") /\
  @FeatherlessProvider.getModelInstance (Scenario.featherlessWorld "")
     (Scenario.featherlessOptions Scenario.featherlessKey)
    = Returned (OpenAILikeModel "https://api.featherless.ai/v1" "sk-1" "m1") /\
  @OllamaProvider.getModelInstance (Scenario.ollamaWorld "") Scenario.ollamaOptions
    = Returned (OllamaModel "llama2" 4096 "http://localhost:11434/api").
Proof.
  split; [|split].
  - apply (@C2_model_instance (Scenario.featherlessWorld "") (Scenario.featherlessOptions None)
             Scenario.ollamaOptions).
    reflexivity.
  - destruct (@C2_model_instance (Scenario.featherlessWorld "")
                (Scenario.featherlessOptions Scenario.featherlessKey) Scenario.ollamaOptions)
      as (_ & H & _).
    destruct (H eq_refl) as (url & key & Hu & Hk & ->).
    vm_compute in Hu, Hk. now injection Hu as <-; injection Hk as <-.
  - destruct (@C2_model_instance (Scenario.ollamaWorld "") (Scenario.featherlessOptions None)
                Scenario.ollamaOptions) as (_ & _ & H).
    destruct (H eq_refl) as (url & Hu & ->).
    vm_compute in Hu. now injection Hu as <-.
Defined.

(** C2 as stated fails for the Ollama adapter: no API key can be resolved
    for it, and [getModelInstance] returns a handle. *)
Lemma C2_counterexample_ollama_returns_handle :
  let W := Scenario.worldWith resolve Scenario.silent Pending in
  apiKey (@OllamaProvider.resolveCredentials W None (SettingsByName None) None) = None /\
  @OllamaProvider.getModelInstance W Scenario.ollamaOptions
    = Returned (OllamaModel "llama2" 4096 "http://localhost:11434/api").
Proof. split; reflexivity. Qed.

(** The Ollama adapter does not look at what the resolver found: under a
    resolver that finds no base URL the handle points at [undefined/api]. *)
Example ollama_handle_without_base_url :
  let U := Scenario.worldWith Scenario.unresolved Scenario.silent Pending in
  baseUrl (@OllamaProvider.resolveCredentials U None (SettingsByName None) None) = None /\
  @OllamaProvider.getModelInstance U Scenario.ollamaOptions
    = Returned (OllamaModel "llama2" 4096 "undefined/api").
Proof. split; reflexivity. Qed.

(** ** The listing timeout *)

(** C3, as amended.  The Featherless listing request carries an abort
    signal that fires after 5000 ms: when no response has arrived by then
    the request is aborted and [getDynamicModels] returns the empty
    sequence.  The Ollama listing request is sent with no signal and no
    timeout: a response is accepted however late it arrives, and while
    none arrives [getDynamicModels] stays pending. *)
Theorem C3_listing_timeout `{W : World} (keys : option (gmap string string))
    (settings : option IProviderSetting) (env : option (gmap string string)) :
  (forall key, signal (FeatherlessProvider.listingInit key) = Some 5000) /\
  (credentialsMissing (featherlessCredentials keys settings env) = false ->
   Unanswered 5000 (featherlessReply (featherlessCredentials keys settings env)) ->
   FeatherlessProvider.getDynamicModels keys settings env = Returned []) /\
  (ollamaReply (ollamaCredentials keys settings) = Silent ->
   OllamaProvider.getDynamicModels keys settings = Pending) /\
  (forall ms r s data models,
     ollamaReply (ollamaCredentials keys settings) = Responds ms r ->
     body r = BodyText s -> JSON_parse s = Some data -> modelsArray data = Some models ->
     OllamaProvider.getDynamicModels keys settings
       = Array_map OllamaProvider.toModelInfo models).
Proof.
  split; [|split; [|split]].
  - reflexivity.
  - apply featherless_unanswered.
  - apply ollama_unanswered.
  - apply ollama_listed.
Qed.

Lemma C3_listing_timeout_witness :
  @FeatherlessProvider.getDynamicModels
     (Scenario.worldWith resolve
        (Scenario.replies 5000 200 (BodyText Scenario.featherlessBody)) Pending)
     Scenario.featherlessKey None None = Returned [] /\
  @FeatherlessProvider.getDynamicModels (Scenario.worldWith resolve Scenario.silent Pending)
     Scenario.featherlessKey None None = Returned [] /\
  @OllamaProvider.getDynamicModels (Scenario.worldWith resolve Scenario.silent Pending)
     None None = Pending.
Proof.
  split; [|split].
  - apply (@C3_listing_timeout
             (Scenario.worldWith resolve
                (Scenario.replies 5000 200 (BodyText Scenario.featherlessBody)) Pending)
             Scenario.featherlessKey None None).
    + reflexivity.
    + apply AnsweredLate. lia.
  - apply (@C3_listing_timeout (Scenario.worldWith resolve Scenario.silent Pending)
             Scenario.featherlessKey None None).
    + reflexivity.
    + apply NeverAnswered.
  - apply (@C3_listing_timeout (Scenario.worldWith resolve Scenario.silent Pending)
             None None None).
    reflexivity.
Defined.

(** C3 as stated fails for the Ollama adapter: its request has no abort
    signal, and against a peer that never answers the call never
    returns. *)
Lemma C3_counterexample_ollama_hangs :
  let W := Scenario.worldWith resolve Scenario.silent Pending in
  @fetch W (OllamaProvider.listingUrl (baseUrl (@ollamaCredentials W None None))) None = Pending /\
  Adapter.adapterGetDynamicModels Adapter.Ollama W None None None = Pending /\
  Adapter.adapterGetDynamicModels Adapter.Ollama W None None None <> Returned [].
Proof. repeat split; discriminate. Qed.

(** ** The context window *)

(** C4, as amended.  In the Featherless mapping [maxTokenAllowed] is the
    record's [details.context_length] as it is, with no fallback: it is
    [undefined] when the backend reports none.  In the Ollama mapping
    [maxTokenAllowed] is the constant 4096, whatever the record holds. *)
Theorem C4_max_token_allowed `{W : World} (keys : option (gmap string string))
    (settings : option IProviderSetting) (env : option (gmap string string))
    (l : list ModelInfo) :
  (FeatherlessProvider.getDynamicModels keys settings env = Returned l ->
   l = [] \/
   exists models,
     Listed JSON_parse (Some 5000) models
       (featherlessReply (featherlessCredentials keys settings env)) /\
     Forall2 (fun model m => reportedContextLength model = Returned (maxTokenAllowed m))
       models l) /\
  (OllamaProvider.getDynamicModels keys settings = Returned l ->
   Forall (fun m => maxTokenAllowed m = JNumber 4096) l).
Proof.
  split.
  - intros Hrun. apply featherless_returned_inv in Hrun as [->|(models & HL & Hmap)]; [now left|].
    right. exists models. split; [exact HL|].
    apply Array_map_Returned in Hmap.
    eapply Forall2_impl; [exact Hmap|].
    intros model m Hm. now apply featherless_toModelInfo_inv in Hm.
  - intros Hrun. apply ollama_returned_inv in Hrun as (ms & r & s & data & models & _ & _ & _ & _ & Hmap).
    apply Array_map_Returned in Hmap.
    eapply Forall2_right; [|exact Hmap].
    intros model m Hm. now apply ollama_toModelInfo_inv in Hm.
Qed.

Lemma C4_max_token_allowed_witness :
  (exists model, reportedContextLength model = Returned (JNumber 8192)) /\
  Forall (fun m => maxTokenAllowed m = JNumber 4096)
    [ {| name := JString "llama2"; label := JString "llama2"; provider := "Ollama";
         maxTokenAllowed := JNumber 4096 |} ].
Proof.
  split.
  - destruct (@C4_max_token_allowed (Scenario.featherlessWorld Scenario.featherlessBody)
                Scenario.featherlessKey None None
                [ {| name := JString "m1"; label := JString "Model One (7B)";
                     provider := "Featherless"; maxTokenAllowed := JNumber 8192 |} ])
      as [H _].
    destruct (H eq_refl) as [Hnil|(models & _ & Hall)]; [discriminate Hnil|].
    inversion Hall as [|model m ? ? Hm]; subst. exists model. exact Hm.
  - apply (@C4_max_token_allowed (Scenario.ollamaWorld Scenario.ollamaBody) None None None).
    reflexivity.
Defined.

(** C4 as stated fails for the Featherless adapter: a record that reports
    no context length is listed with [maxTokenAllowed] undefined, not
    4096. *)
Lemma C4_counterexample_featherless_no_fallback :
  let W := Scenario.featherlessWorld Scenario.featherlessBodyNoContext in
  @FeatherlessProvider.getDynamicModels W Scenario.featherlessKey None None
    = Returned [ {| name := JString "m1"; label := JString "Model One (7B)";
                    provider := "Featherless"; maxTokenAllowed := JUndefined |} ] /\
  JUndefined <> JNumber 4096.
Proof. split; [reflexivity|discriminate]. Qed.

(** ** The examples of the specification *)

(** C5.  A Featherless listing response in time, with a success status
    and the body
    [{"models":[{"id":"m1","details":{"name":"Model One","size":"7B","context_length":8192}}]}],
    maps to exactly one [ModelInfo]: name [m1], label [Model One (7B)],
    provider [Featherless], maxTokenAllowed 8192. *)
Theorem C5_featherless_round_trip `{W : World} (keys : option (gmap string string))
    (settings : option IProviderSetting) (env : option (gmap string string))
    (ms : Z) (r : Response) :
  credentialsMissing (featherlessCredentials keys settings env) = false ->
  featherlessReply (featherlessCredentials keys settings env) = Responds ms r ->
  ms < 5000 -> ok r = true ->
  body r = BodyText Scenario.featherlessBody ->
  JSON_parse Scenario.featherlessBody = JSON.parse Scenario.featherlessBody ->
  FeatherlessProvider.getDynamicModels keys settings env
    = Returned [ {| name := JString "m1"; label := JString "Model One (7B)";
                    provider := "Featherless"; maxTokenAllowed := JNumber 8192 |} ].
Proof.
  intros Hc Hreply Hms Hok Hbody Hparse.
  set (record := JObject [("id", JString "m1");
                          ("details", JObject [("name", JString "Model One");
                                               ("size", JString "7B");
                                               ("context_length", JNumber 8192)])]).
  assert (HL : Listed JSON_parse (Some FeatherlessProvider.timeout_ms) [record]
                 (featherlessReply (featherlessCredentials keys settings env))).
  { rewrite Hreply.
    apply (ListedIn _ _ _ ms r Scenario.featherlessBody (JObject [("models", JArray [record])]));
      [exact Hms|exact Hok|exact Hbody|rewrite Hparse; reflexivity|reflexivity]. }
  rewrite (featherless_listed keys settings env [record] Hc HL). reflexivity.
Qed.

Lemma C5_featherless_round_trip_witness :
  @FeatherlessProvider.getDynamicModels (Scenario.featherlessWorld Scenario.featherlessBody)
     Scenario.featherlessKey None None
    = Returned [ {| name := JString "m1"; label := JString "Model One (7B)";
                    provider := "Featherless"; maxTokenAllowed := JNumber 8192 |} ].
Proof.
  apply (@C5_featherless_round_trip (Scenario.featherlessWorld Scenario.featherlessBody)
           Scenario.featherlessKey None None 120
           {| status := 200; statusText := "OK"; body := BodyText Scenario.featherlessBody |});
    try reflexivity.
Defined.

(** C6.  An Ollama listing response with the body
    [{"models":[{"name":"llama2"}]}] maps to exactly one [ModelInfo]: name
    [llama2], label [llama2], provider [Ollama], maxTokenAllowed 4096
    (whatever the status of the response and the time it took). *)
Theorem C6_ollama_round_trip `{W : World} (keys : option (gmap string string))
    (settings : option IProviderSetting) (ms : Z) (r : Response) :
  ollamaReply (ollamaCredentials keys settings) = Responds ms r ->
  body r = BodyText Scenario.ollamaBody ->
  JSON_parse Scenario.ollamaBody = JSON.parse Scenario.ollamaBody ->
  OllamaProvider.getDynamicModels keys settings
    = Returned [ {| name := JString "llama2"; label := JString "llama2";
                    provider := "Ollama"; maxTokenAllowed := JNumber 4096 |} ].
Proof.
  intros Hreply Hbody Hparse.
  rewrite (ollama_listed keys settings ms r Scenario.ollamaBody
             (JObject [("models", JArray [JObject [("name", JString "llama2")]])])
             [JObject [("name", JString "llama2")]] Hreply Hbody);
    [reflexivity| |reflexivity].
  rewrite Hparse. reflexivity.
Qed.

Lemma C6_ollama_round_trip_witness :
  @OllamaProvider.getDynamicModels (Scenario.ollamaWorld Scenario.ollamaBody) None None
    = Returned [ {| name := JString "llama2"; label := JString "llama2";
                    provider := "Ollama"; maxTokenAllowed := JNumber 4096 |} ].
Proof.
  apply (@C6_ollama_round_trip (Scenario.ollamaWorld Scenario.ollamaBody) None None 15
           {| status := 200; statusText := "OK"; body := BodyText Scenario.ollamaBody |});
    reflexivity.
Defined.

(** ** The provider stamp *)

Lemma featherless_provider_stamp `{W : World} (keys : option (gmap string string))
    (settings : option IProviderSetting) (env : option (gmap string string))
    (l : list ModelInfo) :
  FeatherlessProvider.getDynamicModels keys settings env = Returned l ->
  Forall (fun m => provider m = "Featherless") l.
Proof.
  intros Hrun. apply featherless_returned_inv in Hrun as [->|(models & _ & Hmap)]; [constructor|].
  apply Array_map_Returned in Hmap. eapply Forall2_right; [|exact Hmap].
  intros model m Hm. now apply featherless_toModelInfo_inv in Hm.
Qed.

Lemma ollama_provider_stamp `{W : World} (keys : option (gmap string string))
    (settings : option IProviderSetting) (l : list ModelInfo) :
  OllamaProvider.getDynamicModels keys settings = Returned l ->
  Forall (fun m => provider m = "Ollama") l.
Proof.
  intros Hrun.
  apply ollama_returned_inv in Hrun as (ms & r & s & data & models & _ & _ & _ & _ & Hmap).
  apply Array_map_Returned in Hmap. eapply Forall2_right; [|exact Hmap].
  intros model m Hm. now apply ollama_toModelInfo_inv in Hm.
Qed.

Lemma Forall_bool_total {B : Type} (f : JSValue -> Outcome B) (valid : JSValue -> bool)
    (l : list JSValue) :
  (forall x, valid x = true -> exists y, f x = Returned y) ->
  forallb valid l = true -> Forall (fun x => exists y, f x = Returned y) l.
Proof.
  intros Hf. induction l as [|x l IH]; simpl; [constructor|].
  intros [Hx Hl]%andb_prop. constructor; auto.
Qed.

(** C7.  Every [ModelInfo] in a sequence returned by an adapter's
    [getDynamicModels] has the adapter's [name] as its [provider]; and on
    a valid listing response (in time and with a success status, a
    document with a [models] array of records: for Featherless objects
    whose [details] is an object with strings for [name] and [size], for
    Ollama objects) each adapter does return a sequence, with one entry
    per record. *)
Theorem C7_provider_is_adapter_name `{W : World} (keys : option (gmap string string))
    (settings : option IProviderSetting) (env : option (gmap string string))
    (models : list JSValue) :
  (forall a l, In a Adapter.adapters ->
     Adapter.adapterGetDynamicModels a W keys settings env = Returned l ->
     Forall (fun m => provider m = Adapter.adapterName a) l) /\
  (credentialsMissing (featherlessCredentials keys settings env) = false ->
   Listed JSON_parse (Some 5000) models
     (featherlessReply (featherlessCredentials keys settings env)) ->
   forallb featherlessTyped models = true ->
   exists l, FeatherlessProvider.getDynamicModels keys settings env = Returned l /\
             length l = length models /\
             Forall (fun m => provider m = Adapter.adapterName Adapter.Featherless) l) /\
  (Listed JSON_parse None models (ollamaReply (ollamaCredentials keys settings)) ->
   forallb isObject models = true ->
   exists l, OllamaProvider.getDynamicModels keys settings = Returned l /\
             length l = length models /\
             Forall (fun m => provider m = Adapter.adapterName Adapter.Ollama) l).
Proof.
  split; [|split].
  - intros a l [<-|[<-|[]]] Hrun; simpl in *.
    + now apply featherless_provider_stamp in Hrun.
    + now apply ollama_provider_stamp in Hrun.
  - intros Hc HL Hvalid.
    destruct (Array_map_total FeatherlessProvider.toModelInfo models) as (l & Hmap & Hlen).
    { eapply Forall_bool_total; [apply featherless_toModelInfo_total|exact Hvalid]. }
    assert (Hrun : FeatherlessProvider.getDynamicModels keys settings env = Returned l).
    { rewrite (featherless_listed keys settings env models Hc HL), Hmap. reflexivity. }
    exists l. repeat split; auto. now apply featherless_provider_stamp in Hrun.
  - intros HL Hvalid.
    destruct (Array_map_total OllamaProvider.toModelInfo models) as (l & Hmap & Hlen).
    { eapply Forall_bool_total; [apply ollama_toModelInfo_total|exact Hvalid]. }
    assert (Hrun : OllamaProvider.getDynamicModels keys settings = Returned l).
    { inversion HL as [ms r s data _ _ Hbody Hparse Hmodels Hreply]. symmetry in Hreply.
      rewrite (ollama_listed keys settings ms r s data models Hreply Hbody Hparse Hmodels).
      exact Hmap. }
    exists l. repeat split; auto. now apply ollama_provider_stamp in Hrun.
Qed.

Lemma C7_provider_is_adapter_name_witness :
  Forall (fun m => provider m = "Featherless")
    [ {| name := JString "m1"; label := JString "Model One (7B)";
         provider := "Featherless"; maxTokenAllowed := JNumber 8192 |} ] /\
  (exists l, @FeatherlessProvider.getDynamicModels
               (Scenario.featherlessWorld Scenario.featherlessBody)
               Scenario.featherlessKey None None = Returned l /\
             length l = 1%nat /\ Forall (fun m => provider m = "Featherless") l) /\
  exists l, @OllamaProvider.getDynamicModels (Scenario.ollamaWorld Scenario.ollamaBody) None None
              = Returned l /\
            length l = 1%nat /\ Forall (fun m => provider m = "Ollama") l.
Proof.
  split; [|split].
  - apply (proj1 (@C7_provider_is_adapter_name
                    (Scenario.featherlessWorld Scenario.featherlessBody)
                    Scenario.featherlessKey None None []) Adapter.Featherless).
    + left. reflexivity.
    + reflexivity.
  - apply (proj1 (proj2 (@C7_provider_is_adapter_name
                           (Scenario.featherlessWorld Scenario.featherlessBody)
                           Scenario.featherlessKey None None
                           [JObject [("id", JString "m1");
                                     ("details", JObject [("name", JString "Model One");
                                                          ("size", JString "7B");
                                                          ("context_length", JNumber 8192)])]]))).
    + reflexivity.
    + apply (ListedIn _ _ _ 120
               {| status := 200; statusText := "OK"; body := BodyText Scenario.featherlessBody |}
               Scenario.featherlessBody
               (JObject [("models",
                          JArray [JObject [("id", JString "m1");
                                           ("details", JObject [("name", JString "Model One");
                                                                ("size", JString "7B");
                                                                ("context_length", JNumber 8192)])]])]));
        reflexivity.
    + reflexivity.
  - apply (proj2 (proj2 (@C7_provider_is_adapter_name
                           (Scenario.ollamaWorld Scenario.ollamaBody) None None None
                           [JObject [("name", JString "llama2")]]))).
    + apply (ListedIn _ _ _ 15
               {| status := 200; statusText := "OK"; body := BodyText Scenario.ollamaBody |}
               Scenario.ollamaBody
               (JObject [("models", JArray [JObject [("name", JString "llama2")]])]));
        try reflexivity; exact I.
    + reflexivity.
Defined.

(** ** The chat orchestrator *)

Lemma firstModel_first (models : list ModelInfo) (p : Chat.ProviderInfo) (first : ModelInfo) :
  Chat.firstModel models p = Some first ->
  exists before after,
    models = (before ++ first :: after)%list /\
    provider first = Chat.providerName p /\
    Forall (fun m => provider m <> Chat.providerName p) before.
Proof.
  unfold Chat.firstModel. induction models as [|m models IH]; simpl; [discriminate|].
  destruct (String.eqb (provider m) (Chat.providerName p)) eqn:Hm.
  - intros [= <-]. apply String.eqb_eq in Hm. exists [], models. auto.
  - intros Hfind. destruct (IH Hfind) as (before & after & -> & Hp & Hbefore).
    apply String.eqb_neq in Hm. exists (m :: before), after. auto.
Qed.

(** C8.  When a run of the model refresh receives the list for the
    selected provider and the selected model is not in it under that
    provider, the first model of the list that belongs to the provider
    becomes the selected model and its name is written to the
    [selectedModel] cookie (as the text js-cookie makes of it: a string
    name is stored as it is); the list is replaced and the loading flag
    cleared. *)
Theorem C8_auto_select_first_model `{W : World} (st : Chat.State) (p : Chat.ProviderInfo)
    (models : list ModelInfo) (first : ModelInfo) :
  Chat.selectedProvider st = Some p ->
  getModelList {| list_apiKeys := Chat.apiKeys st;
                  list_providerSettings := Chat.providerSettings p |} = Returned (Some models) ->
  Chat.currentModelExists models (Chat.model st) p = false ->
  Chat.firstModel models p = Some first ->
  (exists before after,
     models = (before ++ first :: after)%list /\
     provider first = Chat.providerName p /\
     Forall (fun m => provider m <> Chat.providerName p) before) /\
  Chat.model (Chat.fetchModels st) = name first /\
  (forall text, ToString (name first) = Returned text ->
     Chat.cookies (Chat.fetchModels st) !! "selectedModel" = Some text) /\
  (forall s, name first = JString s ->
     Chat.cookies (Chat.fetchModels st) !! "selectedModel" = Some s) /\
  Chat.modelList (Chat.fetchModels st) = models /\
  Chat.modelLoading (Chat.fetchModels st) = None.
Proof.
  intros Hp Hlist Habsent Hfirst. split; [now apply firstModel_first|].
  assert (Htext : forall text, ToString (name first) = Returned text ->
            Chat.cookies (Chat.fetchModels st) !! "selectedModel" = Some text).
  { intros text Htext. unfold Chat.fetchModels, Chat.Cookies_set.
    rewrite Hp, Hlist, Habsent, Hfirst. simpl. rewrite Htext. simpl. apply lookup_insert_eq. }
  split; [|split; [exact Htext|split; [intros s Hs; apply Htext; now rewrite Hs|]]].
  - unfold Chat.fetchModels, Chat.Cookies_set. rewrite Hp, Hlist, Habsent, Hfirst. simpl.
    now destruct (ToString (name first)).
  - unfold Chat.fetchModels, Chat.Cookies_set. rewrite Hp, Hlist, Habsent, Hfirst. simpl.
    now destruct (ToString (name first)).
Qed.

Lemma C8_auto_select_first_model_witness :
  Chat.model (@Chat.fetchModels Scenario.chatWorld Scenario.chatState) = JString "llama2" /\
  Chat.cookies (@Chat.fetchModels Scenario.chatWorld Scenario.chatState) !! "selectedModel"
    = Some "llama2".
Proof.
  destruct (@C8_auto_select_first_model Scenario.chatWorld Scenario.chatState
              {| Chat.providerName := "Ollama" |} Scenario.fetchedModels
              {| name := JString "llama2"; label := JString "llama2"; provider := "Ollama";
                 maxTokenAllowed := JNumber 4096 |}
              eq_refl eq_refl eq_refl eq_refl) as (_ & Hmodel & _ & Hcookie & _).
  split; [assumption|]. now apply Hcookie.
Defined.

(** ** The Ollama adapter and the server environment *)

(** C9.  Whatever server environment a caller passes, the Ollama
    adapter's [getDynamicModels] gives the same result: the argument is
    dropped, and the credential resolver is called with the empty
    environment. *)
Theorem C9_ollama_listing_ignores_server_env (W : World) (keys : option (gmap string string))
    (settings : option IProviderSetting) (env1 env2 : option (gmap string string)) :
  Adapter.adapterGetDynamicModels Adapter.Ollama W keys settings env1
    = Adapter.adapterGetDynamicModels Adapter.Ollama W keys settings env2 /\
  Adapter.adapterGetDynamicModels Adapter.Ollama W keys settings env1
    = OllamaProvider.fetchAndMap
        (baseUrl (getProviderBaseUrlAndKey OllamaProvider.this
                    {| apiKeys := keys;
                       providerSettings := OneSetting settings;
                       serverEnv := Some ∅;
                       defaultBaseUrlKey := "OLLAMA_API_BASE_URL";
                       defaultApiTokenKey := "" |})).
Proof.
  split; [reflexivity|]. simpl. apply ollama_run.
Qed.

(** By contrast the Featherless adapter hands the server environment to
    the resolver: under the resolver of section 4.1 a token found only
    there decides whether the listing is fetched. *)
Example featherless_listing_reads_server_env :
  let W := Scenario.featherlessWorld Scenario.featherlessBody in
  Adapter.adapterGetDynamicModels Adapter.Featherless W None None
    (Some {[ "FEATHERLESS_API_KEY" := "sk-1" ]})
    = Returned [ {| name := JString "m1"; label := JString "Model One (7B)";
                    provider := "Featherless"; maxTokenAllowed := JNumber 8192 |} ] /\
  Adapter.adapterGetDynamicModels Adapter.Featherless W None None None = Returned [].
Proof. split; reflexivity. Qed.

(** ** Static models *)

(** C10.  The Ollama adapter's [staticModels] is the empty sequence: it
    offers no model before a dynamic fetch has completed. *)
Theorem C10_ollama_static_models_empty :
  OllamaProvider.staticModels = [] /\
  Adapter.adapterStaticModels Adapter.Ollama = [] /\
  (forall m, ~ In m (Adapter.adapterStaticModels Adapter.Ollama)) /\
  length (Adapter.adapterStaticModels Adapter.Featherless) = 2%nat.
Proof. repeat split. intros m []. Qed.

(** * Further properties of the adapters *)

Lemma Array_map_raises {B : Type} (f : JSValue -> Outcome B) (valid : JSValue -> bool)
    (l : list JSValue) :
  (forall x, valid x = true -> exists y, f x = Returned y) ->
  (forall x, valid x = false -> exists e, f x = Raised e) ->
  forallb valid l = false -> exists e, Array_map f l = Raised e.
Proof.
  intros Hok Hbad. induction l as [|x l IH]; simpl; [discriminate|].
  destruct (valid x) eqn:Hx; simpl.
  - intros Hl. destruct (Hok x Hx) as [y ->]. destruct (IH Hl) as [e ->]. simpl. eauto.
  - intros _. destruct (Hbad x Hx) as [e ->]. simpl. eauto.
Qed.

Lemma bind_settles {A B : Type} (m : Outcome A) (k : A -> Outcome B) :
  m <> Pending -> (forall a, k a <> Pending) -> bind m k <> Pending.
Proof. intros Hm Hk. destruct m; simpl; [apply Hk|discriminate|congruence]. Qed.

Lemma featherless_toModelInfo_settles (model : JSValue) :
  FeatherlessProvider.toModelInfo model <> Pending.
Proof.
  unfold FeatherlessProvider.toModelInfo.
  repeat (apply bind_settles;
          [first [apply getProp_settles|apply ToString_settles]|intros ?]).
  discriminate.
Qed.

Lemma ollama_toModelInfo_settles (model : JSValue) :
  OllamaProvider.toModelInfo model <> Pending.
Proof.
  unfold OllamaProvider.toModelInfo.
  destruct (getProp model "name") as [n| |] eqn:H1; simpl; try discriminate.
  now apply getProp_settles in H1.
Qed.

Lemma featherless_mappable_returns (model : JSValue) :
  featherlessMappable model = true -> exists m, FeatherlessProvider.toModelInfo model = Returned m.
Proof.
  unfold featherlessMappable, FeatherlessProvider.toModelInfo, printable, member.
  destruct model as [ | | | | | |ms]; try discriminate. simpl.
  destruct (lookup_member "details" ms) as [d|]; try discriminate. simpl.
  destruct (nullish d) eqn:Hd; [discriminate|]. simpl.
  assert (Hget : forall k, exists v, getProp d k = Returned v).
  { intros k. destruct d; try discriminate; simpl; eauto. }
  destruct (Hget "name") as [n ->], (Hget "size") as [z ->],
           (Hget "context_length") as [c ->]. simpl.
  destruct (ToString n); try discriminate. destruct (ToString z); try discriminate.
  intros _. simpl. eauto.
Qed.

Lemma featherless_unmappable_raises (model : JSValue) :
  featherlessMappable model = false -> exists e, FeatherlessProvider.toModelInfo model = Raised e.
Proof.
  intros Hm. pose proof (featherless_toModelInfo_settles model) as Hs.
  destruct (FeatherlessProvider.toModelInfo model) as [m|e|] eqn:Hrun; [|eauto|congruence].
  exfalso. revert Hm Hrun.
  unfold featherlessMappable, FeatherlessProvider.toModelInfo, printable, member.
  destruct model as [ | | | | | |ms]; simpl; try discriminate.
  destruct (lookup_member "details" ms) as [d|]; simpl; [|discriminate].
  destruct (nullish d) eqn:Hd; simpl; [destruct d; discriminate|].
  destruct (getProp d "name") as [n| |]; simpl; try discriminate.
  destruct (ToString n); simpl; try discriminate.
  destruct (getProp d "size") as [z| |]; simpl; try discriminate.
  destruct (ToString z); simpl; discriminate.
Qed.

Lemma featherless_typed_mappable (models : list JSValue) :
  forallb featherlessTyped models = true -> forallb featherlessMappable models = true.
Proof.
  induction models as [|model models IH]; simpl; [reflexivity|].
  intros [Hm Hl]%andb_prop. rewrite (IH Hl), andb_true_r. revert Hm.
  unfold featherlessTyped, featherlessMappable, printable.
  destruct model as [ | | | | | |ms]; try discriminate.
  destruct (lookup_member "details" ms) as [d|]; try discriminate.
  destruct d; try discriminate. simpl.
  destruct (member "name" _); try discriminate. destruct (member "size" _); try discriminate.
  reflexivity.
Qed.

Lemma ollama_mappable_returns (model : JSValue) :
  ollamaMappable model = true -> exists m, OllamaProvider.toModelInfo model = Returned m.
Proof.
  unfold ollamaMappable, OllamaProvider.toModelInfo.
  destruct model; try discriminate; intros _; simpl; eauto.
Qed.

Lemma ollama_unmappable_raises (model : JSValue) :
  ollamaMappable model = false -> exists e, OllamaProvider.toModelInfo model = Raised e.
Proof.
  unfold ollamaMappable, OllamaProvider.toModelInfo.
  destruct model; try discriminate; intros _; simpl; eauto.
Qed.

(** X1.  The Featherless listing is all or nothing.  On a response in
    time, with a success status and a [models] array, the call returns one
    entry per record when every record is an object whose [details] is
    neither [undefined] nor [null] and whose [name] and [size] have a
    string conversion; a single record that is not empties the whole
    result. *)
Theorem featherless_listing_all_or_nothing `{W : World} (keys : option (gmap string string))
    (settings : option IProviderSetting) (env : option (gmap string string))
    (models : list JSValue) :
  credentialsMissing (featherlessCredentials keys settings env) = false ->
  Listed JSON_parse (Some 5000) models
    (featherlessReply (featherlessCredentials keys settings env)) ->
  (forallb featherlessMappable models = true ->
   exists l, FeatherlessProvider.getDynamicModels keys settings env = Returned l /\
             length l = length models) /\
  (forallb featherlessMappable models = false ->
   FeatherlessProvider.getDynamicModels keys settings env = Returned []).
Proof.
  intros Hc HL. rewrite (featherless_listed keys settings env models Hc HL). split; intros Hall.
  - destruct (Array_map_total FeatherlessProvider.toModelInfo models) as (l & -> & Hlen).
    { eapply Forall_bool_total; [apply featherless_mappable_returns|exact Hall]. }
    exists l. auto.
  - destruct (Array_map_raises FeatherlessProvider.toModelInfo featherlessMappable models
                featherless_mappable_returns featherless_unmappable_raises Hall) as [e ->].
    reflexivity.
Qed.

Lemma featherless_listing_all_or_nothing_witness :
  @FeatherlessProvider.getDynamicModels
     (Scenario.featherlessWorld Scenario.featherlessBodyNullRecord)
     Scenario.featherlessKey None None = Returned [] /\
  exists l, @FeatherlessProvider.getDynamicModels
              (Scenario.featherlessWorld Scenario.featherlessBody)
              Scenario.featherlessKey None None = Returned l /\ length l = 1%nat.
Proof.
  set (record := JObject [("id", JString "m1");
                          ("details", JObject [("name", JString "Model One");
                                               ("size", JString "7B");
                                               ("context_length", JNumber 8192)])]).
  split.
  - apply (@featherless_listing_all_or_nothing
             (Scenario.featherlessWorld Scenario.featherlessBodyNullRecord)
             Scenario.featherlessKey None None [record; JNull]).
    + reflexivity.
    + apply (ListedIn _ _ _ 120
               {| status := 200; statusText := "OK";
                  body := BodyText Scenario.featherlessBodyNullRecord |}
               Scenario.featherlessBodyNullRecord
               (JObject [("models", JArray [record; JNull])])); reflexivity.
    + reflexivity.
  - apply (@featherless_listing_all_or_nothing
             (Scenario.featherlessWorld Scenario.featherlessBody)
             Scenario.featherlessKey None None [record]).
    + reflexivity.
    + apply (ListedIn _ _ _ 120
               {| status := 200; statusText := "OK"; body := BodyText Scenario.featherlessBody |}
               Scenario.featherlessBody
               (JObject [("models", JArray [record])])); reflexivity.
    + reflexivity.
Defined.

Lemma featherless_toModelInfo_label (model : JSValue) (m : ModelInfo) :
  FeatherlessProvider.toModelInfo model = Returned m ->
  getProp model "id" = Returned (name m) /\
  exists d n z name_text size_text,
    getProp model "details" = Returned d /\
    getProp d "name" = Returned n /\ getProp d "size" = Returned z /\
    ToString n = Returned name_text /\ ToString z = Returned size_text /\
    label m = JString (name_text ++ " (" ++ size_text ++ ")").
Proof.
  unfold FeatherlessProvider.toModelInfo.
  destruct (getProp model "id") as [id| |]; simpl; try discriminate.
  destruct (getProp model "details") as [d| |]; simpl; try discriminate.
  destruct (getProp d "name") as [n| |] eqn:Hn; simpl; try discriminate.
  destruct (ToString n) as [nt| |] eqn:Hnt; simpl; try discriminate.
  destruct (getProp d "size") as [z| |] eqn:Hz; simpl; try discriminate.
  destruct (ToString z) as [zt| |] eqn:Hzt; simpl; try discriminate.
  destruct (getProp d "context_length") as [c| |]; simpl; try discriminate.
  intros [= <-]. simpl. split; [reflexivity|]. exists d, n, z, nt, zt. auto 10.
Qed.

(** X2.  A non-empty Featherless result mirrors the backend's array: one
    entry per record and in the same order, none dropped, merged or added;
    the entry's [name] is the record's [id] and its [label] is the text
    [<details.name> (<details.size>)], each of the two as its string
    conversion. *)
Theorem featherless_listing_shape `{W : World} (keys : option (gmap string string))
    (settings : option IProviderSetting) (env : option (gmap string string))
    (l : list ModelInfo) :
  FeatherlessProvider.getDynamicModels keys settings env = Returned l ->
  l = [] \/
  exists models,
    Listed JSON_parse (Some 5000) models
      (featherlessReply (featherlessCredentials keys settings env)) /\
    length l = length models /\
    Forall2 (fun model m =>
               getProp model "id" = Returned (name m) /\
               exists d n z name_text size_text,
                 getProp model "details" = Returned d /\
                 getProp d "name" = Returned n /\ getProp d "size" = Returned z /\
                 ToString n = Returned name_text /\ ToString z = Returned size_text /\
                 label m = JString (name_text ++ " (" ++ size_text ++ ")"))
      models l.
Proof.
  intros Hrun. apply featherless_returned_inv in Hrun as [->|(models & HL & Hmap)]; [now left|].
  right. exists models. apply Array_map_Returned in Hmap. split; [exact HL|]. split.
  - symmetry. eapply Forall2_length. exact Hmap.
  - eapply Forall2_impl; [exact Hmap|]. intros model m Hm.
    now apply featherless_toModelInfo_label.
Qed.

Lemma featherless_listing_shape_witness :
  exists model,
    getProp model "id" = Returned (JString "m1") /\
    exists d n z name_text size_text,
      getProp model "details" = Returned d /\
      getProp d "name" = Returned n /\ getProp d "size" = Returned z /\
      ToString n = Returned name_text /\ ToString z = Returned size_text /\
      JString "Model One (7B)" = JString (name_text ++ " (" ++ size_text ++ ")").
Proof.
  destruct (@featherless_listing_shape (Scenario.featherlessWorld Scenario.featherlessBody)
              Scenario.featherlessKey None None
              [ {| name := JString "m1"; label := JString "Model One (7B)";
                   provider := "Featherless"; maxTokenAllowed := JNumber 8192 |} ] eq_refl)
    as [Hnil|(models & _ & _ & Hall)]; [discriminate Hnil|].
  inversion Hall as [|model m ? ? Hm]; subst. exists model. exact Hm.
Defined.

(** The label of a record whose name cannot be made text, and of one
    whose name is a large number. *)
Example featherless_unprintable_name_empties_list :
  @FeatherlessProvider.getDynamicModels
     (Scenario.featherlessWorld
        (JSON.dq "{'models':[{'id':'m1','details':{'name':{'toString':1},'size':'7B','context_length':8192}}]}"))
     Scenario.featherlessKey None None = Returned [].
Proof. reflexivity. Qed.

Example featherless_large_number_label :
  @FeatherlessProvider.getDynamicModels
     (Scenario.featherlessWorld
        (JSON.dq "{'models':[{'id':'m1','details':{'name':1000000000000000000000,'size':[1,null,'b'],'context_length':8192}}]}"))
     Scenario.featherlessKey None None
    = Returned [ {| name := JString "m1"; label := JString "1e+21 (1,,b)";
                    provider := "Featherless"; maxTokenAllowed := JNumber 8192 |} ].
Proof. vm_compute. reflexivity. Qed.

(** X3.  A record whose [details] names neither the model nor its size is
    still listed, under the label [undefined (undefined)]. *)
Theorem featherless_label_without_name_and_size (model d : JSValue) :
  getProp model "details" = Returned d -> nullish d = false ->
  getProp d "name" = Returned JUndefined -> getProp d "size" = Returned JUndefined ->
  exists m, FeatherlessProvider.toModelInfo model = Returned m /\
            label m = JString "undefined (undefined)".
Proof.
  intros Hd Hnn Hname Hsize. unfold FeatherlessProvider.toModelInfo.
  assert (Hid : exists id, getProp model "id" = Returned id).
  { destruct model; try discriminate; simpl; eauto. }
  assert (Hc : exists c, getProp d "context_length" = Returned c).
  { destruct d; try discriminate; simpl; eauto. }
  destruct Hid as [id ->], Hc as [c Hc]. simpl. rewrite Hd. simpl.
  rewrite Hname, Hsize, Hc. simpl. eauto.
Qed.

Lemma featherless_label_without_name_and_size_witness :
  @FeatherlessProvider.getDynamicModels
     (Scenario.featherlessWorld Scenario.featherlessBodyBareDetails)
     Scenario.featherlessKey None None
    = Returned [ {| name := JString "m2"; label := JString "undefined (undefined)";
                    provider := "Featherless"; maxTokenAllowed := JUndefined |} ] /\
  exists m, FeatherlessProvider.toModelInfo
              (JObject [("id", JString "m2"); ("details", JObject [])]) = Returned m /\
            label m = JString "undefined (undefined)".
Proof.
  split; [reflexivity|].
  apply (featherless_label_without_name_and_size
           (JObject [("id", JString "m2"); ("details", JObject [])]) (JObject []));
    reflexivity.
Defined.

(** X4.  The only way the Featherless listing call stays pending: the
    credentials are present, the response arrived within the 5 seconds,
    and its body never completes (the timer is cleared before the body is
    read). *)
Theorem featherless_pending_iff_body_stalls `{W : World} (keys : option (gmap string string))
    (settings : option IProviderSetting) (env : option (gmap string string)) :
  FeatherlessProvider.getDynamicModels keys settings env = Pending <->
  credentialsMissing (featherlessCredentials keys settings env) = false /\
  exists ms r,
    featherlessReply (featherlessCredentials keys settings env) = Responds ms r /\
    ms < 5000 /\ body r = BodyStalls.
Proof.
  split.
  - destruct (credentialsMissing (featherlessCredentials keys settings env)) eqn:Hc.
    { rewrite featherless_missing_credentials by assumption. discriminate. }
    rewrite featherless_with_credentials by assumption. intros Hrun. split; [reflexivity|].
    unfold FeatherlessProvider.fetchAndMap in Hrun.
    destruct (featherless_fetch_cases keys settings env)
      as [[e He]|(ms & r & Hreply & Hms & Hf)]; rewrite ?He, ?Hf in Hrun; [discriminate|].
    exists ms, r. split; [exact Hreply|]. split; [exact Hms|].
    simpl in Hrun. unfold text in Hrun.
    destruct (body r) as [s|e|]; [|destruct (ok r); discriminate|reflexivity].
    exfalso. destruct (ok r); simpl in Hrun; [|discriminate].
    destruct (JSON_parse s) as [data|]; [|discriminate].
    destruct (getProp data "models") as [v|e|] eqn:Hget; simpl in Hrun; try discriminate;
      [|now apply getProp_settles in Hget].
    destruct (truthy v); simpl in Hrun; [|discriminate].
    destruct v; simpl in Hrun; try discriminate.
    pose proof (Array_map_settles FeatherlessProvider.toModelInfo elems
                  featherless_toModelInfo_settles) as Hs.
    destruct (Array_map FeatherlessProvider.toModelInfo elems); simpl in Hrun;
      congruence.
  - intros (Hc & ms & r & Hreply & Hms & Hbody).
    now apply (featherless_body_stalls keys settings env ms r).
Qed.

Lemma featherless_pending_iff_body_stalls_witness :
  @FeatherlessProvider.getDynamicModels (Scenario.worldWith resolve Scenario.stalling Pending)
     Scenario.featherlessKey None None = Pending.
Proof.
  apply (@featherless_pending_iff_body_stalls
           (Scenario.worldWith resolve Scenario.stalling Pending) Scenario.featherlessKey None None).
  split; [reflexivity|].
  exists 40, {| status := 200; statusText := "OK"; body := BodyStalls |}.
  split; [reflexivity|]. split; [lia|reflexivity].
Defined.

(** X5.  The Ollama listing looks at neither the status of the response
    nor the time it took: two responses with the same body give the same
    result. *)
Theorem ollama_listing_ignores_status_and_latency (W1 W2 : World)
    (keys : option (gmap string string)) (settings : option IProviderSetting)
    (ms1 ms2 : Z) (r1 r2 : Response) :
  (forall t, @JSON_parse W1 t = @JSON_parse W2 t) ->
  @ollamaReply W1 (@ollamaCredentials W1 keys settings) = Responds ms1 r1 ->
  @ollamaReply W2 (@ollamaCredentials W2 keys settings) = Responds ms2 r2 ->
  body r1 = body r2 ->
  @OllamaProvider.getDynamicModels W1 keys settings
    = @OllamaProvider.getDynamicModels W2 keys settings.
Proof.
  intros Hparse H1 H2 Hbody. rewrite !ollama_run. unfold OllamaProvider.fetchAndMap.
  rewrite !ollama_fetch, H1, H2. simpl. unfold json, json_with, text. rewrite Hbody.
  destruct (body r2) as [s| |]; simpl; try reflexivity.
  now rewrite Hparse.
Qed.

Lemma ollama_listing_ignores_status_and_latency_witness :
  @OllamaProvider.getDynamicModels
     (Scenario.worldWith resolve (Scenario.ollamaPeerFailing Scenario.ollamaBody) Pending)
     None None
    = Returned [ {| name := JString "llama2"; label := JString "llama2";
                    provider := "Ollama"; maxTokenAllowed := JNumber 4096 |} ].
Proof.
  rewrite (ollama_listing_ignores_status_and_latency
             (Scenario.worldWith resolve (Scenario.ollamaPeerFailing Scenario.ollamaBody) Pending)
             (Scenario.ollamaWorld Scenario.ollamaBody) None None
             9000 15
             {| status := 500; statusText := "Internal Server Error";
                body := BodyText Scenario.ollamaBody |}
             {| status := 200; statusText := "OK"; body := BodyText Scenario.ollamaBody |}
             (fun t => eq_refl) eq_refl eq_refl eq_refl).
  reflexivity.
Defined.

(** X6.  An Ollama result mirrors the backend's array: one entry per
    record and in the same order, with the record's [name] as both [name]
    and [label].  In particular the call returns the empty sequence only
    when the backend lists no model. *)
Theorem ollama_listing_shape `{W : World} (keys : option (gmap string string))
    (settings : option IProviderSetting) (l : list ModelInfo) :
  OllamaProvider.getDynamicModels keys settings = Returned l ->
  exists ms r s data models,
    ollamaReply (ollamaCredentials keys settings) = Responds ms r /\
    body r = BodyText s /\ JSON_parse s = Some data /\ modelsArray data = Some models /\
    length l = length models /\
    (l = [] <-> models = []) /\
    Forall2 (fun model m => getProp model "name" = Returned (name m) /\ label m = name m)
      models l.
Proof.
  intros Hrun.
  apply ollama_returned_inv in Hrun as (ms & r & s & data & models & H1 & H2 & H3 & H4 & Hmap).
  exists ms, r, s, data, models. apply Array_map_Returned in Hmap.
  pose proof (Forall2_length _ _ _ Hmap) as Hlen.
  repeat (split; [assumption|]). split; [now symmetry|]. split.
  - split; intros ->; [destruct models|destruct l]; simpl in Hlen; congruence.
  - eapply Forall2_impl; [exact Hmap|]. intros model m Hm.
    apply ollama_toModelInfo_inv in Hm. tauto.
Qed.

Lemma ollama_listing_shape_witness :
  exists models : list JSValue,
    modelsArray (JObject [("models", JArray [JObject [("name", JString "llama2")]])])
      = Some models /\
    length models = 1%nat.
Proof.
  destruct (@ollama_listing_shape (Scenario.ollamaWorld Scenario.ollamaBody) None None
              [ {| name := JString "llama2"; label := JString "llama2";
                   provider := "Ollama"; maxTokenAllowed := JNumber 4096 |} ] eq_refl)
    as (ms & r & s & data & models & Hreply & Hbody & Hparse & Hmodels & Hlen & _).
  injection Hreply as <- <-. injection Hbody as <-.
  vm_compute in Hparse. injection Hparse as <-.
  exists models. split; [exact Hmodels|]. now rewrite <- Hlen.
Defined.

(** X7.  The Ollama listing call stays pending exactly when the peer never
    answers or the body of its response never completes: nothing bounds
    either wait. *)
Theorem ollama_pending_iff_unanswered `{W : World} (keys : option (gmap string string))
    (settings : option IProviderSetting) :
  OllamaProvider.getDynamicModels keys settings = Pending <->
  ollamaReply (ollamaCredentials keys settings) = Silent \/
  exists ms r, ollamaReply (ollamaCredentials keys settings) = Responds ms r /\
               body r = BodyStalls.
Proof.
  rewrite ollama_run. unfold OllamaProvider.fetchAndMap. rewrite ollama_fetch.
  destruct (ollamaReply (ollamaCredentials keys settings)) as [e| |ms r]; simpl.
  - split; [discriminate|]. intros [H|(? & ? & H & _)]; discriminate.
  - split; auto.
  - unfold json, json_with, text. destruct (body r) as [s|e|] eqn:Hbody; simpl.
    + split; [|intros [H|(? & ? & [= <- <-] & Hb)]; congruence].
      intros Hrun. exfalso.
      destruct (JSON_parse s) as [data|]; simpl in Hrun; [|discriminate].
      destruct (getProp data "models") as [v|e|] eqn:Hget; simpl in Hrun; try discriminate;
        [|now apply getProp_settles in Hget].
      destruct v; simpl in Hrun; try discriminate.
      now apply (Array_map_settles OllamaProvider.toModelInfo elems ollama_toModelInfo_settles).
    + split; [discriminate|]. intros [H|(? & ? & [= <- <-] & Hb)]; congruence.
    + split; [|reflexivity]. intros _. right. eauto.
Qed.

(** X8.  The Ollama listing is all or error.  On a response whose body
    parses to a document with a [models] array, the call returns one
    entry per record when no record is [undefined] or [null], and raises
    when one is. *)
Theorem ollama_listing_all_or_error `{W : World} (keys : option (gmap string string))
    (settings : option IProviderSetting) (ms : Z) (r : Response) (s : string)
    (data : JSValue) (models : list JSValue) :
  ollamaReply (ollamaCredentials keys settings) = Responds ms r ->
  body r = BodyText s -> JSON_parse s = Some data -> modelsArray data = Some models ->
  (forallb ollamaMappable models = true ->
   exists l, OllamaProvider.getDynamicModels keys settings = Returned l /\
             length l = length models) /\
  (forallb ollamaMappable models = false ->
   exists e, OllamaProvider.getDynamicModels keys settings = Raised e).
Proof.
  intros Hreply Hbody Hparse Hmodels.
  rewrite (ollama_listed keys settings ms r s data models Hreply Hbody Hparse Hmodels).
  split; intros Hall.
  - apply Array_map_total.
    eapply Forall_bool_total; [apply ollama_mappable_returns|exact Hall].
  - exact (Array_map_raises OllamaProvider.toModelInfo ollamaMappable models
             ollama_mappable_returns ollama_unmappable_raises Hall).
Qed.

Lemma ollama_listing_all_or_error_witness :
  exists e, @OllamaProvider.getDynamicModels
              (Scenario.ollamaWorld (JSON.dq "{'models':[{'name':'llama2'},null]}"))
              None None = Raised e.
Proof.
  apply (@ollama_listing_all_or_error
           (Scenario.ollamaWorld (JSON.dq "{'models':[{'name':'llama2'},null]}")) None None 15
           {| status := 200; statusText := "OK";
              body := BodyText (JSON.dq "{'models':[{'name':'llama2'},null]}") |}
           (JSON.dq "{'models':[{'name':'llama2'},null]}")
           (JObject [("models", JArray [JObject [("name", JString "llama2")]; JNull])])
           [JObject [("name", JString "llama2")]; JNull]); reflexivity.
Defined.

Lemma ollama_pending_iff_unanswered_witness :
  @OllamaProvider.getDynamicModels (Scenario.worldWith resolve Scenario.stalling Pending)
     None None = Pending.
Proof.
  apply (@ollama_pending_iff_unanswered
           (Scenario.worldWith resolve Scenario.stalling Pending) None None).
  right. exists 40, {| status := 200; statusText := "OK"; body := BodyStalls |}.
  split; reflexivity.
Defined.

(** * Further properties of the chat orchestrator *)

Lemma strictEq_eq (a b : JSValue) : strictEq a b = true -> a = b.
Proof.
  destruct a, b; simpl; try discriminate; try reflexivity.
  - intros H. apply Bool.eqb_prop in H. now subst.
  - intros H. apply Z.eqb_eq in H. now subst.
  - intros H. apply String.eqb_eq in H. now subst.
Qed.

Lemma writeCookie_same (key text : string) (st : Chat.State) :
  Chat.cookies st !! key = Some text -> Chat.writeCookie key text st = st.
Proof.
  intros Hk. destruct st as [m p l ld ak jar ts us]. unfold Chat.writeCookie. simpl in *.
  f_equal. now apply insert_id.
Qed.

Lemma fetchModels_provider_and_keys `{W : World} (st : Chat.State) :
  Chat.selectedProvider (Chat.fetchModels st) = Chat.selectedProvider st /\
  Chat.apiKeys (Chat.fetchModels st) = Chat.apiKeys st.
Proof.
  unfold Chat.fetchModels, Chat.Cookies_set.
  destruct (Chat.selectedProvider st) as [p|] eqn:Hp; [|auto].
  destruct (getModelList _) as [[models|]| |]; simpl; auto.
  destruct (Chat.currentModelExists models (Chat.model st) p); simpl; auto.
  destruct (Chat.firstModel models p) as [first|]; simpl; auto.
  destruct (ToString (name first)); simpl; auto.
Qed.

(** X9.  The refresh settles after one run.  Selecting a model re-runs
    the effect (the model is one of its dependencies); when the second
    run's call of [getModelList] is answered as the first run's was, it
    leaves the selected model, the cookies, the list, the loading flag and
    the provider as the first run left them. *)
Theorem fetchModels_settles_after_one_run (W1 W2 : World) (st : Chat.State) :
  (forall options, @getModelList W2 options = @getModelList W1 options) ->
  Chat.model (@Chat.fetchModels W2 (@Chat.fetchModels W1 st))
    = Chat.model (@Chat.fetchModels W1 st) /\
  Chat.cookies (@Chat.fetchModels W2 (@Chat.fetchModels W1 st))
    = Chat.cookies (@Chat.fetchModels W1 st) /\
  Chat.modelList (@Chat.fetchModels W2 (@Chat.fetchModels W1 st))
    = Chat.modelList (@Chat.fetchModels W1 st) /\
  Chat.modelLoading (@Chat.fetchModels W2 (@Chat.fetchModels W1 st))
    = Chat.modelLoading (@Chat.fetchModels W1 st) /\
  Chat.selectedProvider (@Chat.fetchModels W2 (@Chat.fetchModels W1 st))
    = Chat.selectedProvider (@Chat.fetchModels W1 st).
Proof.
  intros Hsame.
  destruct (@fetchModels_provider_and_keys W1 st) as [Hp1 Hk1].
  remember (@Chat.fetchModels W1 st) as st1 eqn:E.
  assert (E2 : @Chat.fetchModels W2 st1 = @Chat.fetchModels W2 st1) by reflexivity.
  unfold Chat.fetchModels in E2 at 2. rewrite Hp1, Hk1 in E2. rewrite E2. clear E2 Hp1 Hk1.
  revert E. unfold Chat.fetchModels, Chat.Cookies_set.
  destruct (Chat.selectedProvider st) as [p|]; [|intros ->; auto].
  rewrite Hsame.
  destruct (getModelList _) as [[models|]| |]; try (intros ->; simpl; auto; fail).
  destruct (Chat.currentModelExists models (Chat.model st) p) eqn:Hex; simpl.
  - intros ->. simpl. rewrite Hex. simpl. auto.
  - destruct (Chat.firstModel models p) as [first|] eqn:Hfirst; simpl.
    + destruct (ToString (name first)) as [text|e|] eqn:Htext; simpl; intros ->; simpl;
        destruct (Chat.currentModelExists models (name first) p); simpl; auto.
      repeat split. apply insert_insert_eq.
    + intros ->. simpl. rewrite Hex. simpl. auto.
Qed.

Lemma fetchModels_settles_after_one_run_witness :
  Chat.model (@Chat.fetchModels Scenario.chatWorld
                (@Chat.fetchModels Scenario.chatWorld Scenario.chatState))
    = JString "llama2" /\
  Chat.cookies (@Chat.fetchModels Scenario.chatWorld
                  (@Chat.fetchModels Scenario.chatWorld Scenario.chatState))
    = Chat.cookies (@Chat.fetchModels Scenario.chatWorld Scenario.chatState).
Proof.
  destruct (fetchModels_settles_after_one_run Scenario.chatWorld Scenario.chatWorld
              Scenario.chatState (fun _ => eq_refl)) as (Hm & Hc & _).
  split; [rewrite Hm; reflexivity|exact Hc].
Defined.

(** X10.  What a refresh leaves alone: the selected provider, the API
    keys and every cookie but [selectedModel]; and it shows at most one
    notification. *)
Theorem fetchModels_frame `{W : World} (st : Chat.State) :
  Chat.selectedProvider (Chat.fetchModels st) = Chat.selectedProvider st /\
  Chat.apiKeys (Chat.fetchModels st) = Chat.apiKeys st /\
  (forall key, key <> "selectedModel" ->
     Chat.cookies (Chat.fetchModels st) !! key = Chat.cookies st !! key) /\
  exists shown, Chat.toasts (Chat.fetchModels st) = (Chat.toasts st ++ shown)%list /\
                (length shown <= 1)%nat.
Proof.
  assert (Hnone : forall l : list string, exists shown, l = (l ++ shown)%list /\
                                                         (length shown <= 1)%nat).
  { intros l. exists []. rewrite app_nil_r. auto. }
  assert (Hone : forall (l : list string) msg,
             exists shown, (l ++ [msg])%list = (l ++ shown)%list /\ (length shown <= 1)%nat).
  { intros l msg. exists [msg]. simpl. auto. }
  unfold Chat.fetchModels, Chat.Cookies_set.
  destruct (Chat.selectedProvider st) as [p|] eqn:Hp; [|rewrite Hp; auto].
  destruct (getModelList _) as [[models|]| |]; simpl; auto.
  destruct (Chat.currentModelExists models (Chat.model st) p); simpl; auto.
  destruct (Chat.firstModel models p) as [first|]; simpl; auto.
  destruct (ToString (name first)) as [text|e|]; simpl; auto.
  repeat split; auto. intros key Hkey. now apply lookup_insert_ne.
Qed.

(** X11.  After a refresh that received a list holding a model of the
    selected provider, the selected model is the name of a listed model of
    that provider. *)
Theorem fetchModels_selects_listed_model `{W : World} (st : Chat.State) (p : Chat.ProviderInfo)
    (models : list ModelInfo) (candidate : ModelInfo) :
  Chat.selectedProvider st = Some p ->
  getModelList {| list_apiKeys := Chat.apiKeys st;
                  list_providerSettings := Chat.providerSettings p |} = Returned (Some models) ->
  In candidate models -> provider candidate = Chat.providerName p ->
  exists m, In m models /\ provider m = Chat.providerName p /\
            name m = Chat.model (Chat.fetchModels st).
Proof.
  intros Hp Hlist Hin Hprov. unfold Chat.fetchModels, Chat.Cookies_set. rewrite Hp, Hlist.
  destruct (Chat.currentModelExists models (Chat.model st) p) eqn:Hex; simpl.
  - unfold Chat.currentModelExists in Hex. apply existsb_exists in Hex as (m & Hm & Heq).
    apply andb_prop in Heq as [Hname Hpm]. exists m.
    apply strictEq_eq in Hname. apply String.eqb_eq in Hpm. auto.
  - destruct (Chat.firstModel models p) as [first|] eqn:Hfirst; simpl.
    + unfold Chat.firstModel in Hfirst. apply find_some in Hfirst as [Hm Hpm].
      apply String.eqb_eq in Hpm. exists first.
      destruct (ToString (name first)); simpl; auto.
    + exfalso. unfold Chat.firstModel in Hfirst.
      apply (find_none _ _ Hfirst) in Hin. apply String.eqb_neq in Hin. contradiction.
Qed.

Lemma fetchModels_selects_listed_model_witness :
  exists m, In m Scenario.fetchedModels /\ provider m = "Ollama" /\
            name m = Chat.model (@Chat.fetchModels Scenario.chatWorld Scenario.chatState).
Proof.
  apply (@fetchModels_selects_listed_model Scenario.chatWorld Scenario.chatState
           {| Chat.providerName := "Ollama" |} Scenario.fetchedModels
           {| name := JString "mistral"; label := JString "mistral"; provider := "Ollama";
              maxTokenAllowed := JNumber 4096 |}); try reflexivity.
  right. right. left. reflexivity.
Defined.

(** X12.  When the list received holds no model of the selected provider
    (an empty list, say), the refresh replaces the list and keeps the
    selected model and the cookies as they were, although the model is not
    in the list. *)
Theorem fetchModels_keeps_selection_without_candidates `{W : World} (st : Chat.State)
    (p : Chat.ProviderInfo) (models : list ModelInfo) :
  Chat.selectedProvider st = Some p ->
  getModelList {| list_apiKeys := Chat.apiKeys st;
                  list_providerSettings := Chat.providerSettings p |} = Returned (Some models) ->
  Forall (fun m => provider m <> Chat.providerName p) models ->
  Chat.model (Chat.fetchModels st) = Chat.model st /\
  Chat.cookies (Chat.fetchModels st) = Chat.cookies st /\
  Chat.modelList (Chat.fetchModels st) = models /\
  Chat.modelLoading (Chat.fetchModels st) = None /\
  Chat.currentModelExists models (Chat.model (Chat.fetchModels st)) p = false.
Proof.
  intros Hp Hlist Hnone.
  assert (Hfirst : Chat.firstModel models p = None).
  { unfold Chat.firstModel. destruct (find _ models) as [m|] eqn:Hfind; [|reflexivity].
    apply find_some in Hfind as [Hm Hpm]. apply String.eqb_eq in Hpm.
    rewrite List.Forall_forall in Hnone. now apply Hnone in Hm. }
  assert (Hex : forall v, Chat.currentModelExists models v p = false).
  { intros v. unfold Chat.currentModelExists. apply not_true_is_false. intros Hex.
    apply existsb_exists in Hex as (m & Hm & Heq). apply andb_prop in Heq as [_ Hpm].
    apply String.eqb_eq in Hpm. rewrite List.Forall_forall in Hnone. now apply (Hnone m). }
  unfold Chat.fetchModels. rewrite Hp, Hlist, Hex, Hfirst. simpl. repeat split. apply Hex.
Qed.

Lemma fetchModels_keeps_selection_without_candidates_witness :
  Chat.model (@Chat.fetchModels Scenario.chatWorldNoOllama Scenario.chatStateOpenAI)
    = JString "gpt-3.5" /\
  length (Chat.modelList (@Chat.fetchModels Scenario.chatWorldNoOllama Scenario.chatStateOpenAI))
    = 1%nat.
Proof.
  destruct (@fetchModels_keeps_selection_without_candidates Scenario.chatWorldNoOllama
              Scenario.chatStateOpenAI {| Chat.providerName := "Ollama" |}
              [ {| name := JString "gpt-4o"; label := JString "GPT-4o";
                   provider := "OpenAI"; maxTokenAllowed := JNumber 8000 |} ]
              eq_refl eq_refl) as (Hm & _ & Hl & _).
  - constructor; [discriminate|constructor].
  - split; [exact Hm|]. now rewrite Hl.
Defined.

(** X13.  When the list cannot be had ([getModelList] raises, or answers
    [undefined]) the refresh keeps the list, the selected model and the
    cookies it found, clears the loading flag, and shows its one
    notification only in the raising case. *)
Theorem fetchModels_failure_keeps_state `{W : World} (st : Chat.State) (p : Chat.ProviderInfo)
    (o : Outcome (option (list ModelInfo))) :
  Chat.selectedProvider st = Some p ->
  getModelList {| list_apiKeys := Chat.apiKeys st;
                  list_providerSettings := Chat.providerSettings p |} = o ->
  (exists e, o = Raised e) \/ o = Returned None ->
  Chat.model (Chat.fetchModels st) = Chat.model st /\
  Chat.cookies (Chat.fetchModels st) = Chat.cookies st /\
  Chat.modelList (Chat.fetchModels st) = Chat.modelList st /\
  Chat.modelLoading (Chat.fetchModels st) = None /\
  Chat.toasts (Chat.fetchModels st)
    = (Chat.toasts st ++
       match o with
       | Raised _ =>
           ["Failed to fetch available models. Please check your provider settings."]
       | _ => []
       end)%list.
Proof.
  intros Hp Hlist Ho. unfold Chat.fetchModels, Chat.fetchFailed. rewrite Hp, Hlist.
  destruct Ho as [[e ->]| ->]; simpl; repeat split. now rewrite app_nil_r.
Qed.

Lemma fetchModels_failure_keeps_state_witness :
  Chat.model (@Chat.fetchModels Scenario.chatWorldFailing Scenario.chatState) = JString "gpt-4o" /\
  Chat.toasts (@Chat.fetchModels Scenario.chatWorldFailing Scenario.chatState)
    = ["Failed to fetch available models. Please check your provider settings."].
Proof.
  destruct (@fetchModels_failure_keeps_state Scenario.chatWorldFailing Scenario.chatState
              {| Chat.providerName := "Ollama" |} (Raised (mkError Error "fetch failed"))
              eq_refl eq_refl) as (Hm & _ & _ & _ & Ht).
  - left. eexists. reflexivity.
  - split; [exact Hm|exact Ht].
Defined.

(** X14.  With a provider selected, the loading flag is cleared exactly
    when [getModelList] settles; while it does not, the flag stays on the
    provider's name (nothing times the wait out). *)
Theorem fetchModels_loading_flag `{W : World} (st : Chat.State) (p : Chat.ProviderInfo) :
  Chat.selectedProvider st = Some p ->
  (Chat.modelLoading (Chat.fetchModels st) = None <->
   getModelList {| list_apiKeys := Chat.apiKeys st;
                   list_providerSettings := Chat.providerSettings p |} <> Pending) /\
  (getModelList {| list_apiKeys := Chat.apiKeys st;
                   list_providerSettings := Chat.providerSettings p |} = Pending ->
   Chat.modelLoading (Chat.fetchModels st) = Some (Chat.providerName p)).
Proof.
  intros Hp. unfold Chat.fetchModels. rewrite Hp.
  destruct (getModelList _) as [[models|]| |]; simpl; split;
    try (split; [discriminate|reflexivity]); try discriminate; try reflexivity.
  split; [discriminate|congruence].
Qed.

Lemma fetchModels_loading_flag_witness :
  Chat.modelLoading (@Chat.fetchModels Scenario.chatWorld Scenario.chatState) = None /\
  Chat.modelLoading (@Chat.fetchModels (Scenario.ollamaWorld "") Scenario.chatState)
    = Some "Ollama".
Proof.
  split.
  - apply (@fetchModels_loading_flag Scenario.chatWorld Scenario.chatState
             {| Chat.providerName := "Ollama" |} eq_refl).
    discriminate.
  - apply (@fetchModels_loading_flag (Scenario.ollamaWorld "") Scenario.chatState
             {| Chat.providerName := "Ollama" |} eq_refl).
    reflexivity.
Defined.

(** X15.  The [selectedModel] cookie follows the selection, as text.  The
    model effect brings the cookie in line with a truthy model that has a
    string conversion; a refresh keeps them in line when the names of the
    list it receives have one (strings do); and on a state where they are
    in line the model effect writes nothing new, so the effect that
    re-fires after an automatic selection changes nothing. *)
Theorem selection_cookie_in_sync `{W : World} (st : Chat.State) :
  (truthy (Chat.model st) = true -> printable (Chat.model st) = true ->
   Chat.inSync (Chat.persistModel st)) /\
  (Chat.inSync st ->
   (forall p models,
      Chat.selectedProvider st = Some p ->
      getModelList {| list_apiKeys := Chat.apiKeys st;
                      list_providerSettings := Chat.providerSettings p |}
        = Returned (Some models) ->
      forallb (fun m => printable (name m)) models = true) ->
   Chat.inSync (Chat.fetchModels st) /\
   Chat.persistModel (Chat.fetchModels st) = Chat.fetchModels st) /\
  (Chat.inSync st -> Chat.persistModel st = st).
Proof.
  assert (Hnoop : forall s, Chat.inSync s -> Chat.persistModel s = s).
  { intros s (text & Htext & Hcookie). unfold Chat.persistModel, Chat.Cookies_set.
    destruct (truthy (Chat.model s)); [|reflexivity].
    rewrite Htext. simpl. now apply writeCookie_same. }
  split; [|split; [|apply Hnoop]].
  - unfold printable, Chat.inSync, Chat.persistModel, Chat.Cookies_set. intros -> Hprint.
    destruct (ToString (Chat.model st)) as [text| |] eqn:Htext; try discriminate. simpl.
    exists text. split; [exact Htext|apply lookup_insert_eq].
  - intros Hs Hnames.
    assert (Hkeep : Chat.inSync (Chat.fetchModels st)).
    { revert Hs Hnames. unfold Chat.inSync, Chat.fetchModels, Chat.Cookies_set.
      intros Hs Hnames.
      destruct (Chat.selectedProvider st) as [p|]; [|exact Hs].
      specialize (Hnames p).
      destruct (getModelList _) as [[models|]| |]; simpl; auto.
      specialize (Hnames models eq_refl eq_refl).
      destruct (Chat.currentModelExists models (Chat.model st) p); simpl; auto.
      destruct (Chat.firstModel models p) as [first|] eqn:Hfirst; simpl; auto.
      unfold Chat.firstModel in Hfirst. apply find_some in Hfirst as [Hin _].
      rewrite forallb_forall in Hnames. specialize (Hnames first Hin).
      unfold printable in Hnames.
      destruct (ToString (name first)) as [text| |] eqn:Htext; try discriminate. simpl.
      exists text. split; [exact Htext|apply lookup_insert_eq]. }
    split; [exact Hkeep|now apply Hnoop].
Qed.

Lemma selection_cookie_in_sync_witness :
  Chat.inSync (@Chat.fetchModels Scenario.chatWorld Scenario.chatState) /\
  Chat.persistModel (@Chat.fetchModels Scenario.chatWorld Scenario.chatState)
    = @Chat.fetchModels Scenario.chatWorld Scenario.chatState /\
  Chat.inSync (Chat.persistModel Scenario.chatState) /\
  Chat.persistModel Scenario.chatState = Scenario.chatState.
Proof.
  destruct (@selection_cookie_in_sync Scenario.chatWorld Scenario.chatState) as (H1 & H2 & H3).
  assert (Hs : Chat.inSync Scenario.chatState).
  { exists "gpt-4o". split; reflexivity. }
  assert (Hn : forall p models,
             Chat.selectedProvider Scenario.chatState = Some p ->
             @getModelList Scenario.chatWorld
               {| list_apiKeys := Chat.apiKeys Scenario.chatState;
                  list_providerSettings := Chat.providerSettings p |}
               = Returned (Some models) ->
             forallb (fun m => printable (name m)) models = true).
  { intros p models _ [= <-]. reflexivity. }
  destruct (H2 Hs Hn) as [Hk Hp].
  split; [exact Hk|]. split; [exact Hp|]. split; [apply H1; reflexivity|apply H3; exact Hs].
Defined.

(** A name that is not a string is persisted as its text; a name that has
    none is selected, not persisted, and reported. *)
Example fetchModels_undefined_name :
  let W := Scenario.worldWith resolve Scenario.down
             (Returned (Some [ {| name := JUndefined; label := JUndefined;
                                  provider := "Ollama"; maxTokenAllowed := JNumber 4096 |} ])) in
  Chat.model (@Chat.fetchModels W Scenario.chatState) = JUndefined /\
  Chat.cookies (@Chat.fetchModels W Scenario.chatState) !! "selectedModel" = Some "undefined".
Proof. split; reflexivity. Qed.

Example fetchModels_unprintable_name :
  let W := Scenario.worldWith resolve Scenario.down
             (Returned (Some [ {| name := JObject [("toString", JNumber 1)];
                                  label := JString "x"; provider := "Ollama";
                                  maxTokenAllowed := JNumber 4096 |} ])) in
  Chat.model (@Chat.fetchModels W Scenario.chatState) = JObject [("toString", JNumber 1)] /\
  Chat.cookies (@Chat.fetchModels W Scenario.chatState) !! "selectedModel" = Some "gpt-4o" /\
  Chat.toasts (@Chat.fetchModels W Scenario.chatState) = [Chat.fetchFailed].
Proof. repeat split; reflexivity. Qed.

(** X16.  The provider of the first render is the first entry of
    [PROVIDER_LIST] that bears the saved name; when no entry does (no
    cookie, or a cookie naming a provider that is not listed) it is
    [DEFAULT_PROVIDER]. *)
Theorem initialProvider_first_match_or_default (savedProvider : option string)
    (PROVIDER_LIST : list Chat.ProviderInfo) (DEFAULT_PROVIDER : option Chat.ProviderInfo) :
  (exists s before q after,
     savedProvider = Some s /\
     PROVIDER_LIST = (before ++ q :: after)%list /\
     Chat.providerName q = s /\
     Forall (fun p => Chat.providerName p <> s) before /\
     Chat.initialProvider savedProvider PROVIDER_LIST DEFAULT_PROVIDER = Some q) \/
  ((forall p, In p PROVIDER_LIST -> Some (Chat.providerName p) <> savedProvider) /\
   Chat.initialProvider savedProvider PROVIDER_LIST DEFAULT_PROVIDER = DEFAULT_PROVIDER).
Proof.
  unfold Chat.initialProvider. destruct savedProvider as [s|].
  - induction PROVIDER_LIST as [|p L IH]; simpl.
    + right. split; [intros p []|reflexivity].
    + destruct (String.eqb (Chat.providerName p) s) eqn:Hp.
      * apply String.eqb_eq in Hp. left. exists s, [], p, L. auto.
      * apply String.eqb_neq in Hp.
        destruct IH as [(s' & before & q & after & [= <-] & -> & Hq & Hbefore & Hfind)
                       |[Hnone Hfind]].
        -- left. exists s, (p :: before), q, after. rewrite Hfind.
           repeat split; auto.
        -- right. rewrite Hfind. split; [|reflexivity].
           intros p' [<-|Hin]; [congruence|now apply Hnone].
  - right. split; [discriminate|].
    induction PROVIDER_LIST as [|p L IH]; simpl; auto.
Qed.

Lemma initialModel_nonempty (savedModel : option string) (DEFAULT_MODEL : string) :
  DEFAULT_MODEL <> "" -> Chat.initialModel savedModel DEFAULT_MODEL <> "".
Proof.
  intros HD. unfold Chat.initialModel. destruct savedModel as [s|]; [|exact HD].
  destruct (String.eqb s "") eqn:Hs; [exact HD|]. now apply String.eqb_neq in Hs.
Qed.

Lemma persistProvider_model (st : Chat.State) :
  Chat.model (Chat.persistProvider st) = Chat.model st.
Proof. unfold Chat.persistProvider. now destruct (Chat.selectedProvider st). Qed.

Lemma persistModel_model (st : Chat.State) :
  Chat.model (Chat.persistModel st) = Chat.model st.
Proof.
  unfold Chat.persistModel, Chat.Cookies_set. destruct (truthy (Chat.model st)); [|reflexivity].
  now destruct (ToString (Chat.model st)).
Qed.

(** X17.  A reload restores the selection.  Once the provider effect and
    the model effect have run, a first render over the resulting jar
    starts from the same (non-empty, string) model and from a listed
    provider of the same name, for every reader of the jar that gives
    the text of a cookie back unchanged. *)
Theorem reload_restores_selection (get : string -> gmap string string -> option string)
    (st : Chat.State) (p : Chat.ProviderInfo) (s : string) (DEFAULT_MODEL : string)
    (PROVIDER_LIST : list Chat.ProviderInfo) (DEFAULT_PROVIDER : option Chat.ProviderInfo) :
  (forall key (jar : gmap string string) v, jar !! key = Some v -> get key jar = Some v) ->
  Chat.selectedProvider st = Some p -> In p PROVIDER_LIST ->
  Chat.model st = JString s -> s <> "" ->
  let jar := Chat.cookies (Chat.persistModel (Chat.persistProvider st)) in
  let st' := Chat.initialState (get "selectedModel" jar) (get "selectedProvider" jar) jar
               DEFAULT_MODEL PROVIDER_LIST DEFAULT_PROVIDER in
  Chat.model st' = Chat.model st /\
  exists q, Chat.selectedProvider st' = Some q /\
            Chat.providerName q = Chat.providerName p /\ In q PROVIDER_LIST.
Proof.
  intros Hget Hp Hin Hm Hs jar st'.
  assert (Hs' : String.eqb s "" = false) by now apply String.eqb_neq.
  assert (Hjm : jar !! "selectedModel" = Some s).
  { subst jar. unfold Chat.persistModel. rewrite persistProvider_model, Hm. simpl.
    rewrite Hs'. simpl. apply lookup_insert_eq. }
  assert (Hjp : jar !! "selectedProvider" = Some (Chat.providerName p)).
  { subst jar. unfold Chat.persistModel. rewrite persistProvider_model, Hm. simpl.
    rewrite Hs'. simpl. rewrite lookup_insert_ne by discriminate.
    unfold Chat.persistProvider. rewrite Hp. simpl. apply lookup_insert_eq. }
  subst st'. rewrite (Hget _ _ _ Hjm), (Hget _ _ _ Hjp). simpl. split.
  - unfold Chat.initialModel. now rewrite Hs', Hm.
  - unfold Chat.initialProvider.
    destruct (find _ PROVIDER_LIST) as [q|] eqn:Hfind.
    + apply find_some in Hfind as [Hq Hname]. apply String.eqb_eq in Hname. eauto.
    + exfalso. apply (find_none _ _ Hfind) in Hin. now rewrite String.eqb_refl in Hin.
Qed.

Lemma reload_restores_selection_witness :
  let jar := Chat.cookies (Chat.persistModel (Chat.persistProvider Scenario.chatState)) in
  Chat.model (Chat.initialState (Scenario.readCookie "selectedModel" jar)
                (Scenario.readCookie "selectedProvider" jar) jar
                "claude-3-5-sonnet" Scenario.providerList Scenario.defaultProvider)
    = JString "gpt-4o" /\
  Chat.selectedProvider
    (Chat.initialState (Scenario.readCookie "selectedModel" jar)
       (Scenario.readCookie "selectedProvider" jar) jar
       "claude-3-5-sonnet" Scenario.providerList Scenario.defaultProvider)
    = Some {| Chat.providerName := "Ollama" |}.
Proof.
  cbv zeta.
  destruct (reload_restores_selection Scenario.readCookie Scenario.chatState
              {| Chat.providerName := "Ollama" |} "gpt-4o" "claude-3-5-sonnet"
              Scenario.providerList Scenario.defaultProvider) as (Hm & q & Hq & _).
  - intros key jar v Hv. exact Hv.
  - reflexivity.
  - right. left. reflexivity.
  - reflexivity.
  - discriminate.
  - split; [exact Hm|reflexivity].
Defined.

(** X18.  Whatever the jar held, once the effects of the first render
    have run the [selectedModel] cookie holds the model the chat starts
    with, provided [DEFAULT_MODEL] is not the empty string: an empty or
    missing cookie is replaced by the default. *)
Theorem first_render_persists_model (savedModel savedProvider : option string)
    (jar : gmap string string) (DEFAULT_MODEL : string)
    (PROVIDER_LIST : list Chat.ProviderInfo) (DEFAULT_PROVIDER : option Chat.ProviderInfo) :
  DEFAULT_MODEL <> "" ->
  let st := Chat.initialState savedModel savedProvider jar DEFAULT_MODEL PROVIDER_LIST
              DEFAULT_PROVIDER in
  truthy (Chat.model st) = true /\
  Chat.inSync (Chat.persistModel (Chat.persistProvider st)) /\
  Chat.cookies (Chat.persistModel (Chat.persistProvider st)) !! "selectedModel"
    = Some (Chat.initialModel savedModel DEFAULT_MODEL).
Proof.
  intros HD st.
  assert (Ht : truthy (Chat.model st) = true).
  { subst st. simpl. apply negb_true_iff. apply String.eqb_neq.
    now apply initialModel_nonempty. }
  assert (Hc : Chat.cookies (Chat.persistModel (Chat.persistProvider st)) !! "selectedModel"
               = Some (Chat.initialModel savedModel DEFAULT_MODEL)).
  { unfold Chat.persistModel. rewrite persistProvider_model, Ht.
    subst st. simpl. apply lookup_insert_eq. }
  split; [exact Ht|]. split; [|exact Hc].
  exists (Chat.initialModel savedModel DEFAULT_MODEL). split; [|exact Hc].
  rewrite persistModel_model, persistProvider_model. reflexivity.
Qed.

Lemma first_render_persists_model_witness :
  Chat.cookies
    (Chat.persistModel
       (Chat.persistProvider
          (Chat.initialState (Some "") None ∅ "claude-3-5-sonnet" Scenario.providerList
             Scenario.defaultProvider))) !! "selectedModel"
    = Some "claude-3-5-sonnet".
Proof.
  apply (first_render_persists_model (Some "") None ∅ "claude-3-5-sonnet"
           Scenario.providerList Scenario.defaultProvider).
  discriminate.
Defined.
